(** * go-utils logger: a shallow embedding of [logger.go] and its properties

    [logger.go] exists in two revisions, both embedded here:

    - the handle-based logger ([NewLogger], [Blogger.Log], [openOutputFiles]),
      which keeps two open files and one [log.Logger] per file, with
      [Blogger.Close] to release them (module [HandleLogger]);
    - the singleton logger ([InitialiseLogger], [LogRequest],
      [createOutputFiles], [closeFile]), which stores two paths in a
      process-wide variable guarded by a [sync.Once] and opens the target
      file on every call (module [SingletonLogger]).

    Go code is modelled as state passing over a [World] (file system, open
    descriptors, the standard logger of package [log], clock, process id) with
    three outcomes: normal return, panic, process exit. The helper and the
    field checks of [logger_test.go] are embedded with the code they test. *)

From Stdlib Require Import ZArith Ascii String List Lia Bool.

From stdpp Require Import base strings gmap pretty.

Import ListNotations.

Local Open Scope string_scope.

Local Open Scope Z_scope.

(** ** Severities and process types (the taxonomy) *)

(** [type Severity int]: any Go [int] is a [Severity]; the six constants are
    the values of [iota]. *)
Abbreviation Severity := Z.

Definition Emergency : Severity := 0.

Definition Alert : Severity := 1.

Definition Critical : Severity := 2.

Definition Notice : Severity := 3.

Definition Debug : Severity := 4.

Definition Trace : Severity := 5.

(** Indexing a Go map with an absent key yields the zero value of the element
    type, here the empty string. *)
Definition map_index (m : gmap Z string) (k : Z) : string :=
  default "" (m !! k).

Definition severityName : gmap Z string :=
  {[ Emergency := "EMERGENCY";
     Alert := "ALERT";
     Critical := "CRITICAL";
     Notice := "NOTICE";
     Debug := "DEBUG";
     Trace := "TRACE" ]}.

(** [func (severity Severity) ToString() string] (named [Severity] in the
    singleton revision). *)
Definition Severity_ToString (severity : Severity) : string :=
  map_index severityName severity.

Abbreviation ProcessType := Z.

Definition OsProcess : ProcessType := 0.

Definition GoRoutineProcess : ProcessType := 1.

Definition RequestProcess : ProcessType := 2.

Definition processTypeName : gmap Z string :=
  {[ OsProcess := "Operating System";
     GoRoutineProcess := "Goroutine";
     RequestProcess := "Request" ]}.

Definition ProcessType_ToString (p : ProcessType) : string :=
  map_index processTypeName p.

Record LogEvent := mkLogEvent {
  ev_ProcessType : ProcessType;
  ev_ProcessId : string;
  ev_Event : string
}.

(** ** Strings: the pieces of [strings], [fmt] and [strconv] the logger uses *)

(** [strings.Join(elems, sep)]. *)
Definition strings_Join (elems : list string) (sep : string) : string :=
  String.concat sep elems.

(** [strings.Split(s, sep)] for a one-character separator: always at least
    one field, the empty string splits into one empty field. *)
Fixpoint strings_Split (sep : ascii) (s : string) : list string :=
  match s with
  | EmptyString => [EmptyString]
  | String c rest =>
      if Ascii.eqb c sep then EmptyString :: strings_Split sep rest
      else match strings_Split sep rest with
           | [] => [String c EmptyString]
           | x :: xs => String c x :: xs
           end
  end.

(** Whether character [c] occurs in [s]. *)
Fixpoint contains_char (c : ascii) (s : string) : bool :=
  match s with
  | EmptyString => false
  | String a rest => Ascii.eqb a c || contains_char c rest
  end.

(** Last character of a string, if any. *)
Fixpoint last_char (s : string) : option ascii :=
  match s with
  | EmptyString => None
  | String c EmptyString => Some c
  | String _ rest => last_char rest
  end.

Definition newline : string := String (ascii_of_nat 10) EmptyString.

(** [strconv.Itoa]. *)
Definition strconv_Itoa (i : Z) : string := pretty i.

(** [fmt.Sprintf("%s,%s,%s,%s,%s", a, b, c, d, e)]: the five strings are
    copied as they are. *)
Definition Sprintf_csv5 (a b c d e : string) : string :=
  a +:+ "," +:+ b +:+ "," +:+ c +:+ "," +:+ d +:+ "," +:+ e.

(** ** Time: [time.Now().UTC()] and its two layouts *)

(** A clock reading in UTC, broken down to the second. *)
Record UTCTime := mkUTC {
  t_year : nat; t_month : nat; t_day : nat;
  t_hour : nat; t_minute : nat; t_second : nat
}.

Definition digit_char (n : nat) : ascii :=
  ascii_of_nat (48 + n mod 10).

(** Decimal digits of [n], at least one. *)
Fixpoint nat_digits (fuel n : nat) (acc : string) : string :=
  let acc' := String (digit_char n) acc in
  match fuel with
  | O => acc'
  | S fuel' => if (n / 10 =? 0)%nat then acc' else nat_digits fuel' (n / 10) acc'
  end.

Fixpoint zeros (k : nat) : string :=
  match k with
  | O => EmptyString
  | S k' => String "0"%char (zeros k')
  end.

(** [appendInt(b, n, width)] of package [time] for [n >= 0]: decimal,
    zero-padded on the left to at least [width] digits. *)
Definition appendInt (n width : nat) : string :=
  let ds := nat_digits n n EmptyString in
  zeros (width - String.length ds) +:+ ds.

(** Layout ["2006-01-02"]. *)
Definition Format_date (t : UTCTime) : string :=
  appendInt (t_year t) 4 +:+ "-" +:+ appendInt (t_month t) 2 +:+ "-" +:+
  appendInt (t_day t) 2.

(** Layout [time.RFC3339] = ["2006-01-02T15:04:05Z07:00"]; a UTC time prints
    its zone as ["Z"]. *)
Definition Format_RFC3339 (t : UTCTime) : string :=
  Format_date t +:+ "T" +:+ appendInt (t_hour t) 2 +:+ ":" +:+
  appendInt (t_minute t) 2 +:+ ":" +:+ appendInt (t_second t) 2 +:+ "Z".


(** ** Paths: [filepath.Clean] and [filepath.Join] on Unix *)

(** One path element pushed on the stack of elements kept so far (last
    element first).  Empty elements and ["."] disappear; [".."] removes the
    element before it, is dropped at the root, and is kept at the start of
    a relative path. *)
Definition clean_step (rooted : bool) (stack : list string) (c : string)
  : list string :=
  if String.eqb c "" || String.eqb c "." then stack
  else if String.eqb c ".." then
    match stack with
    | top :: rest =>
        if String.eqb top ".." then (if rooted then stack else c :: stack)
        else rest
    | [] => if rooted then [] else [c]
    end
  else c :: stack.

Definition is_rooted (p : string) : bool :=
  match p with
  | String "/"%char _ => true
  | _ => false
  end.

(** [filepath.Clean]: the shortest path equivalent to [p] by purely lexical
    processing; the empty path cleans to ["."]. *)
Definition filepath_Clean (p : string) : string :=
  let rooted := is_rooted p in
  let kept := rev (fold_left (clean_step rooted) (strings_Split "/"%char p) []) in
  let body := String.concat "/" kept in
  if rooted then "/" +:+ body
  else if String.eqb body "" then "." else body.

(** [filepath.Join(dir, name)]: empty elements are ignored, the rest are
    joined with a slash and the result is cleaned. *)
Definition filepath_Join (dir name : string) : string :=
  if negb (String.eqb dir "") then filepath_Clean (dir +:+ "/" +:+ name)
  else if negb (String.eqb name "") then filepath_Clean name
  else "".

(** ** The world a Go call runs in *)

(** Error numbers the file system can report. *)
Inductive Errno :=
  | ENOENT | EACCES | ENOSPC | EIO | ENOTDIR | EISDIR | EBADF | ErrClosed.

(** Go [error] values produced by package [os]: [os.ErrInvalid] (a method
    called on a nil [*os.File]) and [*os.PathError]. *)
Inductive error :=
  | ErrInvalid
  | PathError (op path : string) (e : Errno).

(** The flags of [os.OpenFile] that the logger uses. [O_RDONLY] is the
    absence of [O_RDWR]. *)
Record OpenFlags := mkFlags {
  O_RDWR : bool; O_APPEND : bool; O_CREATE : bool
}.

(** A non-nil [*os.File]; a [*os.File] that may be nil is a [FilePtr]. *)
Record File := mkFile {
  f_name : string; f_fd : nat; f_flag : OpenFlags
}.

Abbreviation FilePtr := (option File).

(** Where a [log.Logger] writes. *)
Inductive Writer :=
  | WStderr
  | WFile (f : FilePtr).

(** A [log.Logger]: prefix, flags ([0] or [log.LstdFlags]) and output. *)
Record log_Logger := mkLogger {
  lg_prefix : string; lg_flags : Z; lg_out : Writer
}.

Definition LstdFlags : Z := 3.

(** The [Blogger] struct of the singleton revision: two paths. *)
Record PathBlogger := mkPathBlogger {
  errorsFilepath : string;
  logsFilepath : string
}.

(** I/O failures are decided by the environment: for each operation and
    path, the error it fails with, if any. Permissions, a missing parent
    directory, a directory in the way, a full disk are all causes of such a
    failure; the file system below holds the regular files and their
    contents only. *)
Record Faults := mkFaults {
  fault_mkdir : string -> option Errno;
  fault_open : string -> OpenFlags -> option Errno;
  fault_write : string -> option Errno;
  fault_sync : string -> option Errno;
  fault_close : string -> option Errno
}.

Record World := mkWorld {
  fs_files : gmap string string;   (* regular files: path to content *)
  fs_dirs : gset string;           (* directories made by MkdirAll *)
  open_fds : gset nat;             (* descriptors currently open *)
  next_fd : nat;
  std_logger : log_Logger;         (* the standard logger of package log *)
  stderr_out : string;
  clock : nat -> UTCTime;          (* the n-th reading of the wall clock *)
  clock_reads : nat;               (* readings taken so far *)
  os_pid : Z;
  faults : Faults;
  g_Logger : option PathBlogger;   (* var Logger *Blogger *)
  g_once : bool                    (* var once sync.Once: already done? *)
}.

Definition set_files (f : gmap string string -> gmap string string) (w : World) : World :=
  mkWorld (f (fs_files w)) (fs_dirs w) (open_fds w) (next_fd w) (std_logger w)
    (stderr_out w) (clock w) (clock_reads w) (os_pid w) (faults w)
    (g_Logger w) (g_once w).

Definition set_dirs (f : gset string -> gset string) (w : World) : World :=
  mkWorld (fs_files w) (f (fs_dirs w)) (open_fds w) (next_fd w) (std_logger w)
    (stderr_out w) (clock w) (clock_reads w) (os_pid w) (faults w)
    (g_Logger w) (g_once w).

Definition set_fds (f : gset nat -> gset nat) (n : nat) (w : World) : World :=
  mkWorld (fs_files w) (fs_dirs w) (f (open_fds w)) n (std_logger w)
    (stderr_out w) (clock w) (clock_reads w) (os_pid w) (faults w)
    (g_Logger w) (g_once w).

Definition set_std_logger (l : log_Logger) (w : World) : World :=
  mkWorld (fs_files w) (fs_dirs w) (open_fds w) (next_fd w) l
    (stderr_out w) (clock w) (clock_reads w) (os_pid w) (faults w)
    (g_Logger w) (g_once w).

Definition set_stderr (s : string) (w : World) : World :=
  mkWorld (fs_files w) (fs_dirs w) (open_fds w) (next_fd w) (std_logger w)
    s (clock w) (clock_reads w) (os_pid w) (faults w)
    (g_Logger w) (g_once w).

Definition set_clock_reads (n : nat) (w : World) : World :=
  mkWorld (fs_files w) (fs_dirs w) (open_fds w) (next_fd w) (std_logger w)
    (stderr_out w) (clock w) n (os_pid w) (faults w)
    (g_Logger w) (g_once w).

Definition set_Logger (l : option PathBlogger) (w : World) : World :=
  mkWorld (fs_files w) (fs_dirs w) (open_fds w) (next_fd w) (std_logger w)
    (stderr_out w) (clock w) (clock_reads w) (os_pid w) (faults w)
    l (g_once w).

Definition set_once (b : bool) (w : World) : World :=
  mkWorld (fs_files w) (fs_dirs w) (open_fds w) (next_fd w) (std_logger w)
    (stderr_out w) (clock w) (clock_reads w) (os_pid w) (faults w)
    (g_Logger w) b.

(** Content of the file at [path]; a missing file reads as empty. *)
Definition file_content (w : World) (path : string) : string :=
  default "" (fs_files w !! path).

(** ** Outcomes of a Go call and the monad that threads the world *)

Inductive Outcome (A : Type) :=
  | Ret (a : A) (w : World)          (* the call returned [a] *)
  | Panic (msg : string) (w : World) (* a run-time panic unwinds the caller *)
  | Exit (code : Z) (w : World).     (* [os.Exit]: the process is gone *)

Arguments Ret {A} a w.

Arguments Panic {A} msg w.

Arguments Exit {A} code w.

Definition Go (A : Type) : Type := World -> Outcome A.

Definition ret {A} (a : A) : Go A := fun w => Ret a w.

Definition bind {A B} (c : Go A) (k : A -> Go B) : Go B := fun w =>
  match c w with
  | Ret a w' => k a w'
  | Panic m w' => Panic m w'
  | Exit n w' => Exit n w'
  end.

Notation "x <- c ;; k" := (bind c (fun x => k))
  (at level 100, c at next level, right associativity).

Notation "c ;;; k" := (bind c (fun _ => k))
  (at level 100, right associativity).

Definition panic {A} (msg : string) : Go A := fun w => Panic msg w.

Definition os_Exit {A} (code : Z) : Go A := fun w => Exit code w.

Definition nil_dereference : string :=
  "runtime error: invalid memory address or nil pointer dereference".

(** [defer d] placed just before [body]: [d] runs when [body] returns and
    also when it panics (a panic of [d] replaces the pending one);
    [os.Exit] runs no deferred call. *)
Definition with_defer {A} (d : Go unit) (body : Go A) : Go A := fun w =>
  match body w with
  | Ret a w1 =>
      match d w1 with
      | Ret _ w2 => Ret a w2
      | Panic m w2 => Panic m w2
      | Exit n w2 => Exit n w2
      end
  | Panic m w1 =>
      match d w1 with
      | Ret _ w2 => Panic m w2
      | Panic m' w2 => Panic m' w2
      | Exit n w2 => Exit n w2
      end
  | Exit n w1 => Exit n w1
  end.

(** ** Package [time], [os] and [log] *)

(** [time.Now().UTC()]: the next reading of the clock. *)
Definition time_Now : Go UTCTime := fun w =>
  Ret (clock w (clock_reads w)) (set_clock_reads (S (clock_reads w)) w).

Definition os_Getpid : Go Z := fun w => Ret (os_pid w) w.

(** [os.MkdirAll(path, perm)]: no error when the directory exists already. *)
Definition os_MkdirAll (path : string) (perm : Z) : Go (option error) := fun w =>
  match fault_mkdir (faults w) path with
  | Some e => Ret (Some (PathError "mkdir" path e)) w
  | None =>
      match fs_files w !! path with
      | Some _ => Ret (Some (PathError "mkdir" path ENOTDIR)) w
      | None => Ret None (set_dirs (fun d => {[path]} ∪ d) w)
      end
  end.

(** A fresh descriptor for [name]. *)
Definition alloc_fd (name : string) (flag : OpenFlags) (w : World) : File * World :=
  (mkFile name (next_fd w) flag,
   set_fds (fun s => {[next_fd w]} ∪ s) (S (next_fd w)) w).

(** [os.OpenFile(name, flag, perm)]: an existing file is opened as it is
    (nothing here truncates); a missing one is created empty under
    [O_CREATE] and is an error otherwise. *)
Definition os_OpenFile (name : string) (flag : OpenFlags) (perm : Z)
  : Go (FilePtr * option error) := fun w =>
  match fault_open (faults w) name flag with
  | Some e => Ret (None, Some (PathError "open" name e)) w
  | None =>
      match fs_files w !! name with
      | Some _ =>
          let (f, w') := alloc_fd name flag w in Ret (Some f, None) w'
      | None =>
          if O_CREATE flag then
            let (f, w') := alloc_fd name flag (set_files (fun m => <[name := ""]> m) w) in
            Ret (Some f, None) w'
          else Ret (None, Some (PathError "open" name ENOENT)) w
      end
  end.

(** [File.Write] on a [*os.File]: all of [data] is appended (every writable file of
    the logger is opened with [O_APPEND]) or nothing is. *)
Definition File_Write (f : FilePtr) (data : string) : Go (option error) := fun w =>
  match f with
  | None => Ret (Some ErrInvalid) w
  | Some h =>
      if negb (bool_decide (f_fd h ∈ open_fds w)) then
        Ret (Some (PathError "write" (f_name h) ErrClosed)) w
      else if negb (O_RDWR (f_flag h)) then
        Ret (Some (PathError "write" (f_name h) EBADF)) w
      else match fault_write (faults w) (f_name h) with
           | Some e => Ret (Some (PathError "write" (f_name h) e)) w
           | None =>
               Ret None
                 (set_files (fun m => <[f_name h := file_content w (f_name h) +:+ data]> m) w)
           end
  end.

(** [File.Sync]. *)
Definition File_Sync (f : FilePtr) : Go (option error) := fun w =>
  match f with
  | None => Ret (Some ErrInvalid) w
  | Some h =>
      if negb (bool_decide (f_fd h ∈ open_fds w)) then
        Ret (Some (PathError "sync" (f_name h) ErrClosed)) w
      else match fault_sync (faults w) (f_name h) with
           | Some e => Ret (Some (PathError "sync" (f_name h) e)) w
           | None => Ret None w
           end
  end.

(** [File.Close]: the descriptor is released even when the operating
    system reports an error. *)
Definition File_Close (f : FilePtr) : Go (option error) := fun w =>
  match f with
  | None => Ret (Some ErrInvalid) w
  | Some h =>
      if negb (bool_decide (f_fd h ∈ open_fds w)) then
        Ret (Some (PathError "close" (f_name h) ErrClosed)) w
      else
        let w' := set_fds (fun s => s ∖ {[f_fd h]}) (next_fd w) w in
        match fault_close (faults w) (f_name h) with
        | Some e => Ret (Some (PathError "close" (f_name h) e)) w'
        | None => Ret None w'
        end
  end.

(** [File.Name]: reads a field of the receiver, so a nil receiver
    panics. *)
Definition File_Name (f : FilePtr) : Go string :=
  match f with
  | None => panic nil_dereference
  | Some h => ret (f_name h)
  end.

Definition Writer_Write (o : Writer) (data : string) : Go (option error) :=
  match o with
  | WStderr => fun w => Ret None (set_stderr (stderr_out w +:+ data) w)
  | WFile f => File_Write f data
  end.

Definition Errno_text (e : Errno) : string :=
  match e with
  | ENOENT => "no such file or directory"
  | EACCES => "permission denied"
  | ENOSPC => "no space left on device"
  | EIO => "input/output error"
  | ENOTDIR => "not a directory"
  | EISDIR => "is a directory"
  | EBADF => "bad file descriptor"
  | ErrClosed => "file already closed"
  end.

(** [err.Error()], what [%v] prints for an error. *)
Definition error_text (e : error) : string :=
  match e with
  | ErrInvalid => "invalid argument"
  | PathError op path no => op +:+ " " +:+ path +:+ ": " +:+ Errno_text no
  end.

(** The date and time that [log.LstdFlags] puts before a message (the
    process is taken to run in UTC). The logger prints its lines with the
    flags cleared; the header only ever precedes diagnostics. *)
Definition std_header (t : UTCTime) : string :=
  appendInt (t_year t) 4 +:+ "/" +:+ appendInt (t_month t) 2 +:+ "/" +:+
  appendInt (t_day t) 2 +:+ " " +:+ appendInt (t_hour t) 2 +:+ ":" +:+
  appendInt (t_minute t) 2 +:+ ":" +:+ appendInt (t_second t) 2 +:+ " ".

Definition ends_with_newline (s : string) : bool :=
  match last_char s with
  | Some c => Ascii.eqb c (ascii_of_nat 10)
  | None => false
  end.

(** [Logger.output] of package [log]: prefix, header (the clock is read only when the
    flags ask for it), message, and a newline unless the text ends with one
    already. The error of the write is dropped, as in package [log]. *)
Definition terminate_line (buf : string) : string :=
  if ends_with_newline buf then buf else buf +:+ newline.

Definition Logger_output (l : log_Logger) (s : string) : Go unit :=
  hdr <- (if lg_flags l =? 0 then ret ""
          else (t <- time_Now ;; ret (std_header t))) ;;
  Writer_Write (lg_out l) (terminate_line (lg_prefix l +:+ hdr +:+ s)) ;;;
  ret tt.

(** [log.New(out, prefix, flag)]. *)
Definition log_New (out : FilePtr) (prefix : string) (flag : Z) : log_Logger :=
  mkLogger prefix flag (WFile out).

(** [Logger.Println(msg)]: [fmt.Sprintln] ends the message with a
    newline. *)
Definition Logger_Println (l : log_Logger) (msg : string) : Go unit :=
  Logger_output l (msg +:+ newline).

(** [log.SetFlags], [log.SetOutput], [log.Printf], [log.Fatalf] act on the
    standard logger. The formatted message is passed in. *)
Definition log_SetFlags (flag : Z) : Go unit := fun w =>
  Ret tt (set_std_logger (mkLogger (lg_prefix (std_logger w)) flag (lg_out (std_logger w))) w).

Definition log_SetOutput (f : FilePtr) : Go unit := fun w =>
  Ret tt (set_std_logger (mkLogger (lg_prefix (std_logger w)) (lg_flags (std_logger w)) (WFile f)) w).

Definition log_Printf (formatted : string) : Go unit := fun w =>
  Logger_output (std_logger w) formatted w.

Definition log_Fatalf {A} (formatted : string) : Go A :=
  log_Printf formatted ;;; os_Exit 1.

(** [once.Do(f)]: [f] runs unless a call of [Do] ran it before; the flag is
    set even when [f] panics. *)
Definition once_Do (f : Go unit) : Go unit := fun w =>
  if g_once w then Ret tt w
  else match f w with
       | Ret _ w' => Ret tt (set_once true w')
       | Panic m w' => Panic m (set_once true w')
       | Exit n w' => Exit n w'
       end.

(** ** Code shared by the two revisions *)

Definition todayUTC : Go string :=
  t <- time_Now ;; ret (Format_date t).

Definition nowUTC : Go string :=
  t <- time_Now ;; ret (Format_RFC3339 t).

(** The line both revisions format:
    [fmt.Sprintf("%s,%s,%s,%s,%s", severityName[severity], nowUTC(),
    processTypeName[process.ProcessType], process.ProcessId, process.Event)]
    with the result of [nowUTC()] passed as [now]. *)
Definition format_line (severity : Severity) (now : string) (process : LogEvent) : string :=
  Sprintf_csv5 (map_index severityName severity) now
    (map_index processTypeName (ev_ProcessType process))
    (ev_ProcessId process) (ev_Event process).

(** The event both revisions log once set up. *)
Definition bootstrap_event (pid : Z) : LogEvent :=
  mkLogEvent OsProcess (strconv_Itoa pid) "Logger initialised successfully".

(** Permission bits [0755] and [0644]. *)
Definition perm_0755 : Z := 493.

Definition perm_0644 : Z := 420.

(** ** The handle-based revision *)

Module HandleLogger.

(** [errLogger] and [stdLogger] are [*log.Logger] in the source; [NewLogger]
    is the only constructor and never leaves them nil. *)

Record Blogger := mkBlogger {
  errorsFile : FilePtr;
  logsFile : FilePtr;
  errLogger : log_Logger;  (* includes severities 0-2 *)
  stdLogger : log_Logger   (* includes severities 3-5 *)
}.

(** [os.O_CREATE|os.O_RDWR|os.O_APPEND] *)

Definition create_rdwr_append : OpenFlags := mkFlags true true true.

Definition openOutputFiles (logDirectory logFilename errorFilename : string)
  : Go (FilePtr * FilePtr * option error) :=
  today1 <- todayUTC ;;
  let logsFileTimeExt := strings_Join [today1; "-"; logFilename; ".csv"] "" in
  today2 <- todayUTC ;;
  let errorsFileTimeExt := strings_Join [today2; "-"; errorFilename; ".csv"] "" in
  err <- os_MkdirAll logDirectory perm_0755 ;;
  match err with
  | Some e => ret (None, None, Some e)
  | None =>
      let logsFilepath := filepath_Join logDirectory logsFileTimeExt in
      r1 <- os_OpenFile logsFilepath create_rdwr_append perm_0644 ;;
      match r1 with
      | (_, Some e) => ret (None, None, Some e)
      | (logFile, None) =>
          let errorsFilepath := filepath_Join logDirectory errorsFileTimeExt in
          r2 <- os_OpenFile errorsFilepath create_rdwr_append perm_0644 ;;
          match r2 with
          | (_, Some e) => File_Close logFile ;;; ret (None, None, Some e)
          | (errorFile, None) => ret (logFile, errorFile, None)
          end
      end
  end.

Definition Log (b : Blogger) (severity : Severity) (process : LogEvent) : Go unit :=
  now <- nowUTC ;;
  let msg := format_line severity now process in
  if (severity =? Emergency) || (severity =? Alert) || (severity =? Critical)
  then Logger_Println (errLogger b) msg
  else Logger_Println (stdLogger b) msg.

Definition NewLogger (logDirectory logFilename errorFilename : string)
  : Go (option Blogger * option error) :=
  let errorFilename :=
    if String.eqb errorFilename "" then logFilename else errorFilename in
  r <- openOutputFiles logDirectory logFilename errorFilename ;;
  match r with
  | (_, _, Some e) => ret (None, Some e)
  | (logsFile, errorsFile, None) =>
      let logger := mkBlogger errorsFile logsFile
                      (log_New errorsFile "" 0) (log_New logsFile "" 0) in
      pid <- os_Getpid ;;
      Log logger Trace (bootstrap_event pid) ;;;
      ret (Some logger, None)
  end.

(** The text [log.Printf] prints for the two formats of [Close]: each has
    a verb [%v] and no operand, and [fmt] puts [%!v(MISSING)] in its
    place. *)
Definition closing_errors_diagnostic : string :=
  "error while closing error logs file: %!v(MISSING)".

Definition closing_logs_diagnostic : string :=
  "error while closing logs file: %!v(MISSING)".

(** [Blogger.Close]: each file that is not nil is closed; a failed close is
    reported through [log.Printf] and the method goes on. *)
Definition Close (b : Blogger) : Go unit :=
  (match errorsFile b with
   | Some _ =>
       err <- File_Close (errorsFile b) ;;
       match err with
       | Some _ => log_Printf closing_errors_diagnostic
       | None => ret tt
       end
   | None => ret tt
   end) ;;;
  match logsFile b with
  | Some _ =>
      err <- File_Close (logsFile b) ;;
      match err with
      | Some _ => log_Printf closing_logs_diagnostic
      | None => ret tt
      end
  | None => ret tt
  end.

End HandleLogger.

(** ** The singleton revision *)

Module SingletonLogger.

Abbreviation Blogger := PathBlogger.

(** [os.O_CREATE] alone (read-only) and [os.O_RDWR|os.O_APPEND]. *)

Definition create_only : OpenFlags := mkFlags false false true.

Definition rdwr_append : OpenFlags := mkFlags true true false.

Definition closeFile (file : FilePtr) : Go unit :=
  err <- File_Close file ;;
  match err with
  | Some e =>
      name <- File_Name file ;;
      log_Printf ("An error occurred while closing the logging file " +:+ name +:+
                  newline +:+ "Error details: " +:+ error_text e)
  | None => ret tt
  end.

Definition createOutputFiles (logDirectory logFilename errorFilename : string)
  : Go (string * string * option error) :=
  today1 <- todayUTC ;;
  let logsFileTimeExt := strings_Join [today1; "-"; logFilename; ".csv"] "" in
  today2 <- todayUTC ;;
  let errorsFileTimeExt := strings_Join [today2; "-"; errorFilename; ".csv"] "" in
  err <- os_MkdirAll logDirectory perm_0755 ;;
  match err with
  | Some e => ret ("", "", Some e)
  | None =>
      let logsFilepath := filepath_Join logDirectory logsFileTimeExt in
      r1 <- os_OpenFile logsFilepath create_only perm_0644 ;;
      match r1 with
      | (_, Some e) => ret ("", "", Some e)
      | (logFile, None) =>
          with_defer (closeFile logFile)
            (let errorsFilepath := filepath_Join logDirectory errorsFileTimeExt in
             r2 <- os_OpenFile errorsFilepath create_only perm_0644 ;;
             match r2 with
             | (_, Some e) => ret ("", "", Some e)
             | (errorFile, None) =>
                 with_defer (closeFile errorFile)
                   (ret (logsFilepath, errorsFilepath, None))
             end)
      end
  end.

(** Reading a field through the global [Logger] pointer. *)

Definition Logger_field (field : Blogger -> string) : Go string := fun w =>
  match g_Logger w with
  | Some l => Ret (field l) w
  | None => Panic nil_dereference w
  end.

(** The [switch] of [LogRequest]: which file it opens. Go cases do not fall
    through, so the empty cases [Emergency] and [Alert] leave [file] nil and
    [err] nil. *)

Definition LogRequest_switch (severity : Severity) : Go (FilePtr * option error) :=
  if severity =? Emergency then ret (None, None)
  else if severity =? Alert then ret (None, None)
  else if severity =? Critical then
    path <- Logger_field errorsFilepath ;;
    os_OpenFile path rdwr_append perm_0644
  else
    path <- Logger_field logsFilepath ;;
    os_OpenFile path rdwr_append perm_0644.

Definition LogRequest (severity : Severity) (process : LogEvent) : Go (option error) :=
  r <- LogRequest_switch severity ;;
  match r with
  | (_, Some e) => ret (Some e)
  | (file, None) =>
      with_defer (closeFile file)
        (log_SetFlags 0 ;;;
         log_SetOutput file ;;;
         now <- nowUTC ;;
         log_Printf (format_line severity now process) ;;;
         File_Sync file ;;;
         ret None)
  end.

Definition InitialiseLogger (logDirectory logFilename errorFilename : string) : Go unit :=
  once_Do
    (let errorFilename :=
       if String.eqb errorFilename "" then logFilename else errorFilename in
     r <- createOutputFiles logDirectory logFilename errorFilename ;;
     match r with
     | (_, _, Some e) =>
         log_Fatalf (Severity_ToString Critical +:+
                     ": unable to initialise logger, exiting." +:+ newline +:+
                     "Error details: " +:+ error_text e)
     | (logsFilepath, errorsFilepath, None) =>
         (fun w => Ret tt (set_Logger (Some (mkPathBlogger errorsFilepath logsFilepath)) w)) ;;;
         pid <- os_Getpid ;;
         LogRequest Trace (bootstrap_event pid) ;;;
         ret tt
     end).

End SingletonLogger.

Import SingletonLogger HandleLogger.

(** ** A concrete process to run the code in *)

Definition no_faults : Faults :=
  mkFaults (fun _ => None) (fun _ _ => None) (fun _ => None) (fun _ => None)
    (fun _ => None).

Definition noon : UTCTime := mkUTC 2024 1 15 12 0 0.

(** A fresh process: empty file system, untouched standard logger, the
    singleton not initialised. *)
Definition fresh_world (clk : nat -> UTCTime) (flt : Faults) : World :=
  mkWorld ∅ ∅ ∅ 3 (mkLogger "" LstdFlags WStderr) "" clk 0 4242 flt None false.

Definition w0 : World := fresh_world (fun _ => noon) no_faults.

(** ** Reading a timestamp back

    What [time.Parse(time.RFC3339, s)] accepts for a UTC timestamp: fixed
    width fields, the separators of the layout, zone ["Z"], and a day that
    exists in its month. *)

Definition digit_val (c : ascii) : option nat :=
  let n := nat_of_ascii c in
  if ((48 <=? n) && (n <=? 57))%nat then Some (n - 48)%nat else None.

(** Reads exactly [width] decimal digits from the front of [s]. *)
Fixpoint parse_digits (width : nat) (acc : nat) (s : string) : option (nat * string) :=
  match width with
  | O => Some (acc, s)
  | S width' =>
      match s with
      | String c rest =>
          match digit_val c with
          | Some d => parse_digits width' (10 * acc + d) rest
          | None => None
          end
      | EmptyString => None
      end
  end.

(** Expects the character [c] at the front of [s]. *)
Definition expect_char (c : ascii) (s : string) : option string :=
  match s with
  | String a rest => if Ascii.eqb a c then Some rest else None
  | EmptyString => None
  end.

Definition is_leap (y : nat) : bool :=
  ((y mod 4 =? 0) && (negb (y mod 100 =? 0) || (y mod 400 =? 0)))%nat.

Definition days_in (y m : nat) : nat :=
  match m with
  | 2 => if is_leap y then 29 else 28
  | 4 | 6 | 9 | 11 => 30
  | _ => 31
  end%nat.


Definition in_calendar (t : UTCTime) : bool :=
  ((1 <=? t_month t) && (t_month t <=? 12) && (1 <=? t_day t) &&
   (t_day t <=? days_in (t_year t) (t_month t)) &&
   (t_hour t <? 24) && (t_minute t <? 60) && (t_second t <? 60))%nat.

Definition parse_RFC3339 (s : string) : option UTCTime :=
  '(y, s) ← parse_digits 4 0 s;
  s ← expect_char "-" s;
  '(mo, s) ← parse_digits 2 0 s;
  s ← expect_char "-" s;
  '(d, s) ← parse_digits 2 0 s;
  s ← expect_char "T" s;
  '(h, s) ← parse_digits 2 0 s;
  s ← expect_char ":" s;
  '(mi, s) ← parse_digits 2 0 s;
  s ← expect_char ":" s;
  '(se, s) ← parse_digits 2 0 s;
  s ← expect_char "Z" s;
  let t := mkUTC y mo d h mi se in
  if String.eqb s "" && in_calendar t then Some t else None.

(** The ten digits, and the characters that are none of them. *)
Definition decimal_digits : list ascii :=
  ["0"; "1"; "2"; "3"; "4"; "5"; "6"; "7"; "8"; "9"]%char.

Definition not_digit (c : ascii) : bool :=
  forallb (fun d => negb (Ascii.eqb d c)) decimal_digits.

(** ** Worlds reached by the calls

    The effect of each successful step, written as a function on worlds, so
    that the run of a call can be stated as an equation. *)

(** The world after one more reading of the clock. *)
Definition tick (w : World) : World :=
  set_clock_reads (S (clock_reads w)) w.

(** The file at [p] exists afterwards; an existing file keeps its content. *)
Definition touch (p : string) (m : gmap string string) : gmap string string :=
  match m !! p with
  | Some _ => m
  | None => <[p := ""]> m
  end.

(** The world after a successful [os.OpenFile] of [name]. *)
Definition opened (name : string) (w : World) : World :=
  set_fds (fun s => {[next_fd w]} ∪ s) (S (next_fd w)) (set_files (touch name) w).

(** The world after a successful close of descriptor [fd]. *)
Definition closed (fd : nat) (w : World) : World :=
  set_fds (fun s => s ∖ {[fd]}) (next_fd w) w.

(** The world after [data] was appended to the file at [name]. *)
Definition appended (name data : string) (w : World) : World :=
  set_files (fun m => <[name := file_content w name +:+ data]> m) w.

(** The world in which [LogRequest] leaves an [Emergency] or [Alert] event:
    the standard logger points at a nil file, the clock was read once, and
    no file was touched. *)
Definition dropped (w : World) : World :=
  tick (set_std_logger (mkLogger (lg_prefix (std_logger w)) 0 (WFile None)) w).

(** The path [LogRequest] opens for a severity other than [Emergency] and
    [Alert]. *)
Definition LogRequest_path (l : SingletonLogger.Blogger) (severity : Severity) : string :=
  if severity =? Critical then errorsFilepath l else logsFilepath l.

(** The world after [LogRequest] appended [line] to [path]. *)
Definition logged (path line : string) (w : World) : World :=
  closed (next_fd w)
    (appended path line
       (tick
          (set_std_logger
             (mkLogger "" 0
                (WFile (Some (mkFile path (next_fd w) rdwr_append))))
             (opened path w)))).

(** [strings.Join([]string{today, "-", base, ".csv"}, "")]. *)
Definition dated_name (t : UTCTime) (base : string) : string :=
  strings_Join [Format_date t; "-"; base; ".csv"] "".

(** The two paths resolved in world [w]: the date of the first comes from
    the next clock reading, the date of the second from the one after. *)
Definition logs_path (w : World) (dir base : string) : string :=
  filepath_Join dir (dated_name (clock w (clock_reads w)) base).

Definition errors_path (w : World) (dir base : string) : string :=
  filepath_Join dir (dated_name (clock w (S (clock_reads w))) base).

(** The world in which [MkdirAll] runs. *)
Definition dated (w : World) : World := tick (tick w).

(** The world after [createOutputFiles] created both files. *)
Definition created (dir lp ep : string) (w : World) : World :=
  closed (next_fd w)
    (closed (S (next_fd w))
       (opened ep (opened lp (set_dirs (fun d => {[dir]} ∪ d) (dated w))))).

(** The error name [InitialiseLogger] and [NewLogger] work with. *)
Definition error_name (logFilename errorFilename : string) : string :=
  if String.eqb errorFilename "" then logFilename else errorFilename.

(** The line of the bootstrap event: its timestamp is the third clock
    reading of the initialisation. *)
Definition bootstrap_line (w : World) : string :=
  format_line Trace (Format_RFC3339 (clock w (S (S (clock_reads w)))))
    (bootstrap_event (os_pid w)) +:+ newline.

(** The world after a successful first [InitialiseLogger]. *)
Definition initialised (dir logFilename errorFilename : string) (w : World) : World :=
  let lp := logs_path w dir logFilename in
  let ep := errors_path w dir (error_name logFilename errorFilename) in
  set_once true
    (logged lp (bootstrap_line w)
       (set_Logger (Some (mkPathBlogger ep lp)) (created dir lp ep w))).

(** No I/O operation of an initialisation on [dir], [lp], [ep] fails. *)
Record init_io_ok (w : World) (dir lp ep : string) : Prop := {
  ok_mkdir : fault_mkdir (faults w) dir = None;
  ok_not_a_file : fs_files w !! dir = None;
  ok_open_logs : forall fl, fault_open (faults w) lp fl = None;
  ok_open_errors : forall fl, fault_open (faults w) ep fl = None;
  ok_write_logs : fault_write (faults w) lp = None;
  ok_write_errors : fault_write (faults w) ep = None;
  ok_close_logs : fault_close (faults w) lp = None;
  ok_close_errors : fault_close (faults w) ep = None
}.

(** ** Loggers of the handle-based revision *)

(** A logger as [NewLogger] builds it: two loggers without prefix and flags,
    one over each file. *)
Definition built (b : Blogger) : Prop :=
  errLogger b = log_New (errorsFile b) "" 0 /\
  stdLogger b = log_New (logsFile b) "" 0.

(** The file [Log] routes a severity to. *)
Definition Log_file (b : Blogger) (severity : Severity) : FilePtr :=
  if (severity =? Emergency) || (severity =? Alert) || (severity =? Critical)
  then errorsFile b else logsFile b.

(** The world after [openOutputFiles] opened both files. *)
Definition both_open (dir lp ep : string) (w : World) : World :=
  opened ep (opened lp (set_dirs (fun d => {[dir]} ∪ d) (dated w))).

(** The logger [NewLogger] returns for files [lp] and [ep] opened on the
    descriptors [fd] and [fd + 1]. *)
Definition new_Blogger (lp ep : string) (fd : nat) : Blogger :=
  let logsFile := Some (mkFile lp fd create_rdwr_append) in
  let errorsFile := Some (mkFile ep (S fd) create_rdwr_append) in
  mkBlogger errorsFile logsFile (log_New errorsFile "" 0) (log_New logsFile "" 0).

(** ** Paths in clean form *)



(** ** Observing an outcome *)

Definition outcome_world {A} (o : Outcome A) : World :=
  match o with
  | Ret _ w => w
  | Panic _ w => w
  | Exit _ w => w
  end.

Definition returned {A} (o : Outcome A) : option A :=
  match o with
  | Ret a _ => Some a
  | _ => None
  end.

(** ** Worlds with failing devices *)

(** Every write fails: the disk is full. *)
Definition disk_full : Faults :=
  mkFaults (fun _ => None) (fun _ _ => None) (fun _ => Some ENOSPC)
    (fun _ => None) (fun _ => None).



(** ** Concurrent calls of [LogRequest]

    One call of [LogRequest] as the sequence of its statements, each an
    atomic step on the shared world; the local variables of the call are its
    own. A schedule picks which call takes the next step. *)

Inductive Stage :=
  | AtSwitch | AtSetFlags | AtSetOutput | AtNow | AtPrintf | AtSync | AtClose
  | Returned (err : option error).

Record Call := mkCall {
  c_severity : Severity;
  c_process : LogEvent;
  c_stage : Stage;
  c_file : FilePtr;   (* var file *os.File *)
  c_now : string      (* the evaluated argument nowUTC() *)
}.

Definition start (severity : Severity) (process : LogEvent) : Call :=
  mkCall severity process AtSwitch None "".

Definition at_stage (c : Call) (s : Stage) : Call :=
  mkCall (c_severity c) (c_process c) s (c_file c) (c_now c).

Definition LogRequest_step (c : Call) : Go Call :=
  match c_stage c with
  | AtSwitch =>
      r <- SingletonLogger.LogRequest_switch (c_severity c) ;;
      match r with
      | (_, Some e) => ret (at_stage c (Returned (Some e)))
      | (file, None) => ret (mkCall (c_severity c) (c_process c) AtSetFlags file "")
      end
  | AtSetFlags => log_SetFlags 0 ;;; ret (at_stage c AtSetOutput)
  | AtSetOutput => log_SetOutput (c_file c) ;;; ret (at_stage c AtNow)
  | AtNow =>
      now <- nowUTC ;;
      ret (mkCall (c_severity c) (c_process c) AtPrintf (c_file c) now)
  | AtPrintf =>
      log_Printf (format_line (c_severity c) (c_now c) (c_process c)) ;;;
      ret (at_stage c AtSync)
  | AtSync => File_Sync (c_file c) ;;; ret (at_stage c AtClose)
  | AtClose => SingletonLogger.closeFile (c_file c) ;;; ret (at_stage c (Returned None))
  | Returned _ => ret c
  end.

(** [n] steps of one call, nothing in between. *)
Fixpoint run_call (n : nat) (c : Call) : Go Call :=
  match n with
  | O => ret c
  | S n' => c' <- LogRequest_step c ;; run_call n' c'
  end.

(** The calls take steps in the order of [schedule], a list of indices
    into [calls]. A panic in any call ends the run. *)
Fixpoint interleave (schedule : list nat) (calls : list Call) : Go (list Call) :=
  match schedule with
  | [] => ret calls
  | i :: rest =>
      match calls !! i with
      | Some c => c' <- LogRequest_step c ;; interleave rest (<[i := c']> calls)
      | None => interleave rest calls
      end
  end.

(** The singleton after [InitialiseLogger("/tmp/x", "app", "err")]. *)
Definition w_two_files : World :=
  outcome_world (SingletonLogger.InitialiseLogger "/tmp/x" "app" "err" w0).

(** Two calls, one after the other. *)
Definition one_then_other : list nat :=
  [0; 0; 0; 0; 0; 0; 0; 1; 1; 1; 1; 1; 1; 1]%nat.

(** The second call redirects the standard logger between [SetOutput] and
    [Printf] of the first. *)
Definition redirected_in_between : list nat :=
  [0; 0; 0; 1; 1; 1; 0; 0; 0; 0; 1; 1; 1; 1]%nat.

(** The second call redirects the standard logger and runs to its end,
    closing its file, before the first call prints. *)
Definition closed_in_between : list nat :=
  [0; 0; 0; 1; 1; 1; 1; 1; 1; 1; 0; 0; 0; 0]%nat.

(** What an observer of a finished call sees: its result, if it has one. *)
Definition call_result (c : Call) : option (option error) :=
  match c_stage c with
  | Returned r => Some r
  | _ => None
  end.

Definition outcome_map {A B} (f : A -> B) (o : Outcome A) : Outcome B :=
  match o with
  | Ret a w => Ret (f a) w
  | Panic m w => Panic m w
  | Exit n w => Exit n w
  end.

(** ** Sample events and processes *)

(** The event of the format test of the repository. *)
Definition formatting_test : LogEvent :=
  mkLogEvent RequestProcess "999" "FormattingTest".

(** The singleton and the handle-based logger, set up on a full disk. *)
Definition w_disk_full : World :=
  outcome_world
    (InitialiseLogger "/tmp/x" "app" "err" (fresh_world (fun _ => noon) disk_full)).

Definition handle_disk_full : Outcome (option Blogger * option error) :=
  NewLogger "/tmp/x" "app" "err" (fresh_world (fun _ => noon) disk_full).

(** A process whose singleton names an errors file that does not exist. *)
Definition w_errors_file_gone : World :=
  set_Logger (Some (mkPathBlogger "/tmp/x/gone.csv" "/tmp/x/2024-01-15-app.csv")) w0.


(** The event of the default-name example. *)
Definition boom : LogEvent := mkLogEvent OsProcess "1" "boom".

(** The singleton after [InitialiseLogger("/tmp/x", "app", "")]. *)
Definition w_single_file : World :=
  outcome_world (InitialiseLogger "/tmp/x" "app" "" w0).

(** The bootstrap line of a process with id 4242 at noon. *)
Definition bootstrap_noon : string :=
  "TRACE,2024-01-15T12:00:00Z,Operating System,4242,Logger initialised successfully"
  +:+ newline.

(** The last second of a year, then the first of the next. *)
Definition around_midnight (n : nat) : UTCTime :=
  match n with
  | O => mkUTC 2024 12 31 23 59 59
  | _ => mkUTC 2025 1 1 0 0 0
  end.

(** ** What every call keeps

    [keeps R c]: the world in which the call [c] ends, however it ends, is
    related by [R] to the world in which it started. *)

Definition keeps {A} (R : World -> World -> Prop) (c : Go A) : Prop :=
  forall w, R w (outcome_world (c w)).

(** Files stay and only grow: a file of [w] is a file of [w'], and what it
    held is the beginning of what it holds. *)
Definition extends (w w' : World) : Prop :=
  forall q c, fs_files w !! q = Some c ->
    exists suffix, fs_files w' !! q = Some (c +:+ suffix).

(** The descriptor table is as before. *)
Definition same_fds (w w' : World) : Prop :=
  open_fds w' = open_fds w /\ next_fd w' = next_fd w.

(** The standard logger of package [log] is as before. *)
Definition same_std_logger (w w' : World) : Prop :=
  std_logger w' = std_logger w.

(** The globals of the singleton are as before. *)
Definition same_globals (w w' : World) : Prop :=
  g_Logger w' = g_Logger w /\ g_once w' = g_once w.

(** A relation that the clock, the file system and the standard error
    stream play no part in. *)
Class Blind (R : World -> World -> Prop) : Prop := {
  Blind_refl : Reflexive R;
  Blind_trans : Transitive R;
  Blind_files : forall f w, R w (set_files f w);
  Blind_dirs : forall f w, R w (set_dirs f w);
  Blind_clock_reads : forall n w, R w (set_clock_reads n w);
  Blind_stderr : forall s w, R w (set_stderr s w)
}.

(** The call does not end the process. *)
Definition never_exits {A} (c : Go A) : Prop :=
  forall w n w', c w <> Exit n w'.

(** Every open descriptor was handed out already: the next one is new. *)
Definition fds_fresh (w : World) : Prop :=
  forall fd, fd ∈ open_fds w -> (fd < next_fd w)%nat.

(** [tidy c]: started with a sound descriptor table, the call [c] returns
    or panics with exactly the descriptors open that were open before. *)
Definition tidy {A} (c : Go A) : Prop :=
  forall w, fds_fresh w ->
    (forall n w', c w <> Exit n w') /\
    open_fds (outcome_world (c w)) = open_fds w /\
    fds_fresh (outcome_world (c w)).

(** The descriptors a handle-based logger holds. *)
Definition File_fds (f : FilePtr) : gset nat :=
  match f with
  | Some h => {[f_fd h]}
  | None => ∅
  end.

Definition Blogger_fds (b : HandleLogger.Blogger) : gset nat :=
  File_fds (HandleLogger.errorsFile b) ∪ File_fds (HandleLogger.logsFile b).

(** ** The tests of the repository

    [getExpectedFilenames] of [logger_test.go]: the date is read once. *)
Definition getExpectedFilenames (dir logName errName : string) : Go (string * string) :=
  t <- time_Now ;;
  let date := Format_date t in
  let logFile := filepath_Join dir (date +:+ "-" +:+ logName +:+ ".csv") in
  let errFile := filepath_Join dir (date +:+ "-" +:+ errName +:+ ".csv") in
  ret (logFile, errFile).

(** The field checks of [TestLogFormat] on the line it found: [None] when
    the line has fewer than five parts, else [parts[0]] to [parts[3]] and
    [strings.Join(parts[4:], ",")]. *)
Definition TestLogFormat_fields (foundLine : string)
  : option (string * string * string * string * string) :=
  let parts := strings_Split "," foundLine in
  if (length parts <? 5)%nat then None
  else Some (nth 0 parts "", nth 1 parts "", nth 2 parts "", nth 3 parts "",
             strings_Join (drop 4 parts) ",").

(** ** Concurrent calls of [Blogger.Log]

    One call of [Log] as its two statements, each an atomic step on the
    shared world: [msg := fmt.Sprintf(...)], which reads the clock, and the
    [Println] of the logger of the tier, which writes the whole line in one
    [Write] under the lock of that logger. The local [msg] of a call is its
    own. *)

Inductive LogStage := AtSprintf | AtPrintln | LogReturned.

Record LogCall := mkLogCall {
  lc_severity : Severity;
  lc_process : LogEvent;
  lc_stage : LogStage;
  lc_msg : string   (* msg := fmt.Sprintf(...) *)
}.

Definition Log_start (severity : Severity) (process : LogEvent) : LogCall :=
  mkLogCall severity process AtSprintf "".

Definition Log_step (b : HandleLogger.Blogger) (c : LogCall) : Go LogCall :=
  match lc_stage c with
  | AtSprintf =>
      now <- nowUTC ;;
      ret (mkLogCall (lc_severity c) (lc_process c) AtPrintln
             (format_line (lc_severity c) now (lc_process c)))
  | AtPrintln =>
      (if (lc_severity c =? Emergency) || (lc_severity c =? Alert) ||
          (lc_severity c =? Critical)
       then Logger_Println (HandleLogger.errLogger b) (lc_msg c)
       else Logger_Println (HandleLogger.stdLogger b) (lc_msg c)) ;;;
      ret (mkLogCall (lc_severity c) (lc_process c) LogReturned (lc_msg c))
  | LogReturned => ret c
  end.

(** [n] steps of one call, nothing in between. *)
Fixpoint run_Log (n : nat) (b : HandleLogger.Blogger) (c : LogCall) : Go LogCall :=
  match n with
  | O => ret c
  | S n' => c' <- Log_step b c ;; run_Log n' b c'
  end.

(** The calls take steps in the order of [schedule], a list of indices
    into [calls]. *)
Fixpoint interleave_Log (b : HandleLogger.Blogger) (schedule : list nat)
    (calls : list LogCall) : Go (list LogCall) :=
  match schedule with
  | [] => ret calls
  | i :: rest =>
      match calls !! i with
      | Some c => c' <- Log_step b c ;; interleave_Log b rest (<[i := c']> calls)
      | None => interleave_Log b rest calls
      end
  end.

(** How many steps [schedule] gives to call [i]. *)
Definition turns (i : nat) (schedule : list nat) : nat :=
  length (filter (fun j => j = i) schedule).

(** The tier of a severity: [true] for the errors file. *)
Definition errors_tier (severity : Severity) : bool :=
  (severity =? Emergency) || (severity =? Alert) || (severity =? Critical).

(** Lines written one after the other. *)
Definition written (lines : list string) : string :=
  fold_right String.append "" lines.

(** Both files of the logger can be written. *)
Definition Log_ready (he hs : File) (w : World) : Prop :=
  f_fd he ∈ open_fds w /\ f_fd hs ∈ open_fds w /\
  O_RDWR (f_flag he) = true /\ O_RDWR (f_flag hs) = true /\
  fault_write (faults w) (f_name he) = None /\
  fault_write (faults w) (f_name hs) = None.

(** The file of a tier. *)
Definition tier_file (he hs : File) (errors : bool) : File :=
  if errors then he else hs.

(** What a call contributes to the lines of a tier. *)
Definition printed_line (errors : bool) (c : LogCall) : option string :=
  match lc_stage c with
  | LogReturned =>
      if Bool.eqb (errors_tier (lc_severity c)) errors
      then Some (lc_msg c +:+ newline) else None
  | _ => None
  end.

(** The lines of the calls that have returned, for one tier. *)
Definition printed (errors : bool) (calls : list LogCall) : list string :=
  omap (printed_line errors) calls.

(** How far a call has come. *)
Definition stage_rank (s : LogStage) : nat :=
  match s with
  | AtSprintf => 0
  | AtPrintln => 1
  | LogReturned => 2
  end.

(** * Properties *)

(** ** The library models on known inputs *)

Example Clean_samples :
  map filepath_Clean
    [""; "abc//def//ghi"; "abc/./def"; "/./abc/def"; "abc/.."; "/";
     "abc/def/ghi/../jkl"; "abc/def/../.."; "/abc/def/../.."; "abc/def/../../..";
     "/abc/def/../../.."; "abc/def/../../../ghi/jkl/../../../mno"; "/../abc";
     "abc/./../def"; "abc/../../././../def"; "abc/def/"; "../../abc"]
  = ["."; "abc/def/ghi"; "abc/def"; "/abc/def"; "."; "/";
     "abc/def/jkl"; "."; "/"; "..";
     "/"; "../../mno"; "/abc";
     "def"; "../../def"; "abc/def"; "../../abc"].
Proof. vm_compute. reflexivity. Qed.

Example Format_samples :
  Format_RFC3339 (mkUTC 2024 1 15 9 5 0) = "2024-01-15T09:05:00Z" /\
  Format_date (mkUTC 2024 12 31 23 59 59) = "2024-12-31" /\
  strconv_Itoa 4242 = "4242" /\
  strings_Split ","%char "a,,b" = ["a"; ""; "b"] /\
  Severity_ToString Critical = "CRITICAL" /\
  Severity_ToString 6 = "".
Proof. vm_compute. repeat split; reflexivity. Qed.

Example parse_samples :
  parse_RFC3339 "2024-02-29T23:59:59Z" = Some (mkUTC 2024 2 29 23 59 59) /\
  parse_RFC3339 "2023-02-29T23:59:59Z" = None /\
  parse_RFC3339 "2024-02-29 23:59:59Z" = None /\
  parse_RFC3339 (Format_RFC3339 noon) = Some noon.
Proof. vm_compute. repeat split; reflexivity. Qed.

(** ** The taxonomy *)

Lemma severityName_lookup (s : Z) :
  severityName !! s =
    if decide (s = Emergency) then Some "EMERGENCY"
    else if decide (s = Alert) then Some "ALERT"
    else if decide (s = Critical) then Some "CRITICAL"
    else if decide (s = Notice) then Some "NOTICE"
    else if decide (s = Debug) then Some "DEBUG"
    else if decide (s = Trace) then Some "TRACE"
    else None.
Proof.
  unfold severityName.
  repeat (case_decide; [subst; by simplify_map_eq|]).
  by simplify_map_eq.
Qed.

Lemma processTypeName_lookup (p : Z) :
  processTypeName !! p =
    if decide (p = OsProcess) then Some "Operating System"
    else if decide (p = GoRoutineProcess) then Some "Goroutine"
    else if decide (p = RequestProcess) then Some "Request"
    else None.
Proof.
  unfold processTypeName.
  repeat (case_decide; [subst; by simplify_map_eq|]).
  by simplify_map_eq.
Qed.

Lemma Severity_ToString_cases (s : Z) :
  In (Severity_ToString s)
     ["EMERGENCY"; "ALERT"; "CRITICAL"; "NOTICE"; "DEBUG"; "TRACE"; ""].
Proof.
  unfold Severity_ToString, map_index. rewrite severityName_lookup.
  repeat case_decide; simpl; tauto.
Qed.

Lemma ProcessType_ToString_cases (p : Z) :
  In (ProcessType_ToString p) ["Operating System"; "Goroutine"; "Request"; ""].
Proof.
  unfold ProcessType_ToString, map_index. rewrite processTypeName_lookup.
  repeat case_decide; simpl; tauto.
Qed.

Lemma Severity_ToString_outside (s : Z) :
  s < Emergency \/ Trace < s -> Severity_ToString s = "".
Proof.
  unfold Emergency, Trace. intros Hs.
  unfold Severity_ToString, map_index. rewrite severityName_lookup.
  unfold Emergency, Alert, Critical, Notice, Debug, Trace.
  repeat case_decide; try lia; reflexivity.
Qed.

Lemma ProcessType_ToString_outside (p : Z) :
  p < OsProcess \/ RequestProcess < p -> ProcessType_ToString p = "".
Proof.
  unfold OsProcess, RequestProcess. intros Hp.
  unfold ProcessType_ToString, map_index. rewrite processTypeName_lookup.
  unfold OsProcess, GoRoutineProcess, RequestProcess.
  repeat case_decide; try lia; reflexivity.
Qed.

(** ** Strings *)

#[local] Arguments String.append : simpl nomatch.

Lemma append_assoc (a b c : string) : (a +:+ b) +:+ c = a +:+ (b +:+ c).
Proof. induction a as [|x a IH]; [reflexivity | simpl; f_equal; exact IH]. Qed.

Lemma append_empty_r (a : string) : a +:+ "" = a.
Proof. induction a as [|x a IH]; [reflexivity | simpl; f_equal; exact IH]. Qed.

Lemma contains_char_app (c : ascii) (a b : string) :
  contains_char c (a +:+ b) = contains_char c a || contains_char c b.
Proof.
  induction a as [|x a IH]; simpl; [reflexivity|].
  rewrite IH. by rewrite orb_assoc.
Qed.


Lemma Split_app_sep (c : ascii) (a b : string) :
  contains_char c a = false ->
  strings_Split c (a +:+ String c b) = a :: strings_Split c b.
Proof.
  induction a as [|x a IH]; simpl.
  - intros _. by rewrite Ascii.eqb_refl.
  - intros H. apply orb_false_iff in H as [Hx Ha].
    rewrite Hx, (IH Ha). reflexivity.
Qed.


Lemma Sprintf_csv5_Join (a b c d e : string) :
  Sprintf_csv5 a b c d e = strings_Join [a; b; c; d; e] ",".
Proof. reflexivity. Qed.

(** ** Digits and dates *)

Lemma digit_char_cases (n : nat) : In (digit_char n) decimal_digits.
Proof.
  unfold digit_char.
  assert (H : (n mod 10 < 10)%nat) by (apply Nat.mod_upper_bound; lia).
  destruct (n mod 10)%nat as [|[|[|[|[|[|[|[|[|[|k]]]]]]]]]];
    simpl; try tauto; lia.
Qed.



#[local] Opaque digit_char Nat.div Nat.modulo.

Lemma digit_char_neq (c : ascii) (n : nat) :
  not_digit c = true -> Ascii.eqb (digit_char n) c = false.
Proof.
  unfold not_digit. rewrite forallb_forall. intros H.
  apply negb_true_iff, H, digit_char_cases.
Qed.

Lemma nat_digits_no_char (c : ascii) (fuel n : nat) (acc : string) :
  not_digit c = true -> contains_char c acc = false ->
  contains_char c (nat_digits fuel n acc) = false.
Proof.
  intros Hc. revert n acc.
  induction fuel as [|fuel IH]; intros n acc Hacc; simpl.
  - by rewrite (digit_char_neq c n Hc).
  - destruct (n / 10 =? 0)%nat.
    + simpl. by rewrite (digit_char_neq c n Hc).
    + apply IH. simpl. by rewrite (digit_char_neq c n Hc).
Qed.

Lemma zeros_no_char (c : ascii) (k : nat) :
  not_digit c = true -> contains_char c (zeros k) = false.
Proof.
  intros Hc. induction k as [|k IH]; simpl; [reflexivity|].
  rewrite IH, orb_false_r.
  apply (digit_char_neq c 0 Hc).
Qed.

Lemma appendInt_no_char (c : ascii) (n width : nat) :
  not_digit c = true -> contains_char c (appendInt n width) = false.
Proof.
  intros Hc. unfold appendInt. rewrite contains_char_app.
  rewrite zeros_no_char by assumption.
  by rewrite nat_digits_no_char.
Qed.

Lemma Format_RFC3339_no_comma (t : UTCTime) :
  contains_char "," (Format_RFC3339 t) = false.
Proof.
  unfold Format_RFC3339, Format_date.
  rewrite !contains_char_app, !appendInt_no_char by reflexivity.
  reflexivity.
Qed.







#[local] Transparent digit_char Nat.div Nat.modulo.




(** Reduction of the projections of a changed world, and nothing else. *)
Ltac world_simpl :=
  cbn [fs_files fs_dirs open_fds next_fd std_logger stderr_out clock
       clock_reads os_pid faults g_Logger g_once
       set_files set_dirs set_fds set_std_logger set_stderr set_clock_reads
       set_Logger set_once].

(** ** Running the primitives *)

#[local] Arguments filepath_Join : simpl never.

#[local] Arguments Format_date : simpl never.

#[local] Arguments Format_RFC3339 : simpl never.

#[local] Arguments format_line : simpl never.

#[local] Arguments strconv_Itoa : simpl never.

#[local] Arguments file_content : simpl never.

#[local] Arguments ends_with_newline : simpl never.

#[local] Arguments error_text : simpl never.

#[local] Arguments std_header : simpl never.

Lemma touch_lookup_Some (p : string) (m : gmap string string) (c : string) :
  m !! p = Some c -> touch p m = m.
Proof. intros H. unfold touch. by rewrite H. Qed.

Lemma touch_content (p q : string) (m : gmap string string) :
  default "" (touch p m !! q) = default "" (m !! q).
Proof.
  unfold touch. destruct (m !! p) eqn:Hp; [reflexivity|].
  destruct (decide (p = q)) as [->|Hne].
  - by rewrite lookup_insert_eq, Hp.
  - by rewrite lookup_insert_ne.
Qed.

Lemma touch_is_Some (p : string) (m : gmap string string) :
  touch p m !! p = Some (default "" (m !! p)).
Proof.
  unfold touch. destruct (m !! p) eqn:Hp.
  - by rewrite Hp.
  - by rewrite lookup_insert_eq.
Qed.

Lemma os_OpenFile_ok (name : string) (flag : OpenFlags) (perm : Z) (w : World) :
  fault_open (faults w) name flag = None ->
  O_CREATE flag = true \/ is_Some (fs_files w !! name) ->
  os_OpenFile name flag perm w =
    Ret (Some (mkFile name (next_fd w) flag), None) (opened name w).
Proof.
  intros Hf Hex. unfold os_OpenFile, opened, touch. rewrite Hf.
  destruct (fs_files w !! name) as [c|] eqn:Hc.
  - destruct w; unfold alloc_fd, set_fds, set_files; simpl in *.
    rewrite Hc. reflexivity.
  - destruct Hex as [Hcr|[c Hc']]; [|discriminate].
    rewrite Hcr. destruct w; unfold alloc_fd, set_fds, set_files; simpl in *.
    rewrite Hc. reflexivity.
Qed.

Lemma os_OpenFile_fault (name : string) (flag : OpenFlags) (perm : Z) (w : World) (e : Errno) :
  fault_open (faults w) name flag = Some e ->
  os_OpenFile name flag perm w = Ret (None, Some (PathError "open" name e)) w.
Proof. intros Hf. unfold os_OpenFile. by rewrite Hf. Qed.

Lemma os_OpenFile_missing (name : string) (flag : OpenFlags) (perm : Z) (w : World) :
  fault_open (faults w) name flag = None ->
  fs_files w !! name = None -> O_CREATE flag = false ->
  os_OpenFile name flag perm w = Ret (None, Some (PathError "open" name ENOENT)) w.
Proof. intros Hf Hm Hc. unfold os_OpenFile. by rewrite Hf, Hm, Hc. Qed.

(** [os.OpenFile] returns, with an error or with a file, never both and
    never neither. *)
Lemma os_OpenFile_cases (name : string) (flag : OpenFlags) (perm : Z) (w : World) :
  (exists e, os_OpenFile name flag perm w = Ret (None, Some e) w) \/
  os_OpenFile name flag perm w =
    Ret (Some (mkFile name (next_fd w) flag), None) (opened name w).
Proof.
  destruct (fault_open (faults w) name flag) as [e|] eqn:Hf.
  - left. eexists. by apply os_OpenFile_fault.
  - destruct (fs_files w !! name) as [c|] eqn:Hc.
    + right. apply os_OpenFile_ok; eauto.
    + destruct (O_CREATE flag) eqn:Hcr.
      * right. apply os_OpenFile_ok; eauto.
      * left. eexists. by apply os_OpenFile_missing.
Qed.

Lemma File_Write_ok (h : File) (data : string) (w : World) :
  f_fd h ∈ open_fds w -> O_RDWR (f_flag h) = true ->
  fault_write (faults w) (f_name h) = None ->
  File_Write (Some h) data w = Ret None (appended (f_name h) data w).
Proof.
  intros Hfd Hrw Hf. unfold File_Write.
  rewrite bool_decide_eq_true_2 by assumption. rewrite Hrw, Hf. reflexivity.
Qed.

Lemma File_Write_fault (h : File) (data : string) (w : World) (e : Errno) :
  f_fd h ∈ open_fds w -> O_RDWR (f_flag h) = true ->
  fault_write (faults w) (f_name h) = Some e ->
  File_Write (Some h) data w = Ret (Some (PathError "write" (f_name h) e)) w.
Proof.
  intros Hfd Hrw Hf. unfold File_Write.
  rewrite bool_decide_eq_true_2 by assumption. rewrite Hrw, Hf. reflexivity.
Qed.

(** A write returns and changes at most the content of the file written. *)
Lemma File_Write_returns (f : FilePtr) (data : string) (w : World) :
  exists r w', File_Write f data w = Ret r w' /\
    (w' = w \/ exists h, f = Some h /\ w' = appended (f_name h) data w).
Proof.
  unfold File_Write. destruct f as [h|]; [|eauto].
  destruct (negb (bool_decide (f_fd h ∈ open_fds w))); [eauto|].
  destruct (negb (O_RDWR (f_flag h))); [eauto|].
  destruct (fault_write (faults w) (f_name h)); eauto 10.
Qed.

Lemma File_Sync_returns (f : FilePtr) (w : World) :
  exists r, File_Sync f w = Ret r w.
Proof.
  unfold File_Sync. destruct f as [h|]; [|eauto].
  destruct (negb (bool_decide (f_fd h ∈ open_fds w))); [eauto|].
  destruct (fault_sync (faults w) (f_name h)); eauto.
Qed.

Lemma File_Close_ok (h : File) (w : World) :
  f_fd h ∈ open_fds w -> fault_close (faults w) (f_name h) = None ->
  File_Close (Some h) w = Ret None (closed (f_fd h) w).
Proof.
  intros Hfd Hf. unfold File_Close.
  rewrite bool_decide_eq_true_2 by assumption. cbn. rewrite Hf. reflexivity.
Qed.

(** Closing a non-nil file returns; the descriptor is not open afterwards
    and nothing but the descriptor table changes. *)
Lemma File_Close_returns (h : File) (w : World) :
  exists r w', File_Close (Some h) w = Ret r w' /\
    (w' = w \/ w' = closed (f_fd h) w) /\ f_fd h ∉ open_fds w'.
Proof.
  unfold File_Close.
  destruct (bool_decide (f_fd h ∈ open_fds w)) eqn:Hm; cbn.
  - apply bool_decide_eq_true in Hm.
    assert (Hgone : f_fd h ∉ open_fds (closed (f_fd h) w)).
    { cbn. apply not_elem_of_difference. right. by apply elem_of_singleton. }
    destruct (fault_close (faults w) (f_name h)); eauto 10.
  - apply bool_decide_eq_false in Hm. eauto 10.
Qed.

(** ** Frame facts: what each change of the world leaves alone *)

Lemma file_content_opened (name q : string) (w : World) :
  file_content (opened name w) q = file_content w q.
Proof. unfold file_content, opened. cbn. apply touch_content. Qed.

Lemma lookup_opened (name : string) (w : World) :
  fs_files (opened name w) !! name = Some (file_content w name).
Proof. unfold opened, file_content. cbn. apply touch_is_Some. Qed.

Lemma file_content_appended_eq (name data : string) (w : World) :
  file_content (appended name data w) name = file_content w name +:+ data.
Proof. unfold file_content at 1, appended. cbn. by rewrite lookup_insert_eq. Qed.

Lemma file_content_appended_ne (name data q : string) (w : World) :
  name <> q -> file_content (appended name data w) q = file_content w q.
Proof.
  intros Hne. unfold file_content at 1, appended. cbn.
  by rewrite lookup_insert_ne.
Qed.

(** ** Package [log] *)

Lemma ends_with_newline_app (s : string) : ends_with_newline (s +:+ newline) = true.
Proof.
  unfold ends_with_newline.
  assert (H : last_char (s +:+ newline) = Some (ascii_of_nat 10)).
  { induction s as [|c s IH]; [reflexivity|].
    change (String c s +:+ newline) with (String c (s +:+ newline)).
    simpl last_char. rewrite IH.
    destruct (s +:+ newline) eqn:E; [|reflexivity].
    destruct s; discriminate. }
  rewrite H. apply Ascii.eqb_refl.
Qed.

Lemma terminate_line_newline (s : string) :
  terminate_line (s +:+ newline) = s +:+ newline.
Proof. unfold terminate_line. by rewrite ends_with_newline_app. Qed.

Lemma Writer_Write_returns (o : Writer) (data : string) (w : World) :
  exists r w', Writer_Write o data w = Ret r w'.
Proof.
  destruct o as [|f]; cbn; [eauto|].
  destruct (File_Write_returns f data w) as (r & w' & H & _). eauto.
Qed.

(** A logger without flags writes the terminated message and drops the
    result of the write. *)
Lemma Logger_output_plain (l : log_Logger) (s : string) (w : World) :
  lg_flags l = 0 ->
  Logger_output l s w =
    (Writer_Write (lg_out l) (terminate_line (lg_prefix l +:+ s)) ;;; ret tt) w.
Proof. intros Hf. unfold Logger_output. rewrite Hf. reflexivity. Qed.

Lemma Logger_output_returns (l : log_Logger) (s : string) (w : World) :
  exists w', Logger_output l s w = Ret tt w'.
Proof.
  unfold Logger_output, bind.
  destruct (lg_flags l =? 0); cbn;
    match goal with |- context [Writer_Write ?o ?d ?w1] =>
      destruct (Writer_Write_returns o d w1) as (r & w' & ->) end; eauto.
Qed.

Lemma log_Printf_returns (s : string) (w : World) :
  exists w', log_Printf s w = Ret tt w'.
Proof. apply Logger_output_returns. Qed.

(** ** The singleton revision, call by call *)

Lemma closeFile_nil (w : World) : closeFile None w = Panic nil_dereference w.
Proof. reflexivity. Qed.

Lemma closeFile_ok (h : File) (w : World) :
  f_fd h ∈ open_fds w -> fault_close (faults w) (f_name h) = None ->
  closeFile (Some h) w = Ret tt (closed (f_fd h) w).
Proof.
  intros Hfd Hf. unfold closeFile, bind.
  by rewrite (File_Close_ok h w Hfd Hf).
Qed.

Lemma closeFile_returns (h : File) (w : World) :
  exists w', closeFile (Some h) w = Ret tt w'.
Proof.
  unfold closeFile, bind.
  destruct (File_Close_returns h w) as (r & w1 & -> & _).
  destruct r as [e|]; [|eauto].
  cbn. apply log_Printf_returns.
Qed.

Lemma LogRequest_Emergency (process : LogEvent) (w : World) :
  LogRequest Emergency process w = Panic nil_dereference (dropped w).
Proof. reflexivity. Qed.

Lemma LogRequest_Alert (process : LogEvent) (w : World) :
  LogRequest Alert process w = Panic nil_dereference (dropped w).
Proof. reflexivity. Qed.

Lemma LogRequest_switch_opens (severity : Severity) (l : SingletonLogger.Blogger) (w : World) :
  g_Logger w = Some l -> severity <> Emergency -> severity <> Alert ->
  LogRequest_switch severity w =
    os_OpenFile (LogRequest_path l severity) rdwr_append perm_0644 w.
Proof.
  intros Hl He Ha. unfold LogRequest_switch, LogRequest_path.
  destruct (severity =? Emergency) eqn:E1; [apply Z.eqb_eq in E1; contradiction|].
  destruct (severity =? Alert) eqn:E2; [apply Z.eqb_eq in E2; contradiction|].
  destruct (severity =? Critical); unfold bind, Logger_field; by rewrite Hl.
Qed.

Lemma LogRequest_ok (severity : Severity) (process : LogEvent) (l : SingletonLogger.Blogger) (w : World) :
  g_Logger w = Some l -> severity <> Emergency -> severity <> Alert ->
  let path := LogRequest_path l severity in
  is_Some (fs_files w !! path) ->
  fault_open (faults w) path rdwr_append = None ->
  fault_write (faults w) path = None ->
  fault_close (faults w) path = None ->
  lg_prefix (std_logger w) = "" ->
  LogRequest severity process w =
    Ret None
      (logged path
         (terminate_line
            (format_line severity (Format_RFC3339 (clock w (clock_reads w))) process))
         w).
Proof.
  intros Hl He Ha path Hex Hop Hwr Hcl Hpre.
  unfold LogRequest. unfold bind at 1.
  rewrite (LogRequest_switch_opens severity l w Hl He Ha). fold path.
  rewrite os_OpenFile_ok by auto.
  unfold with_defer, bind, log_SetFlags, log_SetOutput, nowUTC, bind, time_Now,
    log_Printf, ret.
  cbn [std_logger set_std_logger lg_prefix lg_flags lg_out clock clock_reads
       set_clock_reads opened set_fds set_files].
  rewrite Logger_output_plain by reflexivity.
  unfold bind. cbn [lg_out lg_prefix Writer_Write].
  rewrite Hpre.
  rewrite File_Write_ok; cycle 1.
  { cbn. set_solver. }
  { reflexivity. }
  { exact Hwr. }
  unfold ret.
  match goal with |- context [File_Sync ?f ?w1] =>
    destruct (File_Sync_returns f w1) as (r & ->) end.
  rewrite closeFile_ok; cycle 1.
  { cbn. set_solver. }
  { exact Hcl. }
  reflexivity.
Qed.

Lemma LogRequest_open_error (severity : Severity) (process : LogEvent)
    (l : SingletonLogger.Blogger) (w w1 : World) (f : FilePtr) (e : error) :
  g_Logger w = Some l -> severity <> Emergency -> severity <> Alert ->
  os_OpenFile (LogRequest_path l severity) rdwr_append perm_0644 w = Ret (f, Some e) w1 ->
  LogRequest severity process w = Ret (Some e) w1.
Proof.
  intros Hl He Ha Hop. unfold LogRequest. unfold bind at 1.
  rewrite (LogRequest_switch_opens severity l w Hl He Ha), Hop. reflexivity.
Qed.

Lemma LogRequest_opened_nil (severity : Severity) (process : LogEvent)
    (l : SingletonLogger.Blogger) (w w1 : World) (h : File) :
  g_Logger w = Some l -> severity <> Emergency -> severity <> Alert ->
  os_OpenFile (LogRequest_path l severity) rdwr_append perm_0644 w = Ret (Some h, None) w1 ->
  exists w2, LogRequest severity process w = Ret None w2.
Proof.
  intros Hl He Ha Hop. unfold LogRequest. unfold bind at 1.
  rewrite (LogRequest_switch_opens severity l w Hl He Ha), Hop.
  unfold with_defer, bind, log_SetFlags, log_SetOutput, nowUTC, bind, time_Now, ret.
  match goal with |- context [log_Printf ?s ?w0] =>
    destruct (log_Printf_returns s w0) as (w3 & ->) end.
  destruct (File_Sync_returns (Some h) w3) as (r & ->).
  destruct (closeFile_returns h w3) as (w4 & ->). eauto.
Qed.

(** ** Resolving and creating the two files *)

Lemma os_MkdirAll_ok (dir : string) (perm : Z) (w : World) :
  fault_mkdir (faults w) dir = None -> fs_files w !! dir = None ->
  os_MkdirAll dir perm w = Ret None (set_dirs (fun d => {[dir]} ∪ d) w).
Proof. intros Hf Hd. unfold os_MkdirAll. by rewrite Hf, Hd. Qed.

(** [MkdirAll] returns; on an error the world is as before. *)
Lemma os_MkdirAll_cases (dir : string) (perm : Z) (w : World) :
  (exists e, os_MkdirAll dir perm w = Ret (Some e) w) \/
  os_MkdirAll dir perm w = Ret None (set_dirs (fun d => {[dir]} ∪ d) w).
Proof.
  unfold os_MkdirAll.
  destruct (fault_mkdir (faults w) dir); [eauto|].
  destruct (fs_files w !! dir); eauto.
Qed.

Lemma createOutputFiles_ok (dir logFilename errorFilename : string) (w : World) :
  let lp := logs_path w dir logFilename in
  let ep := errors_path w dir errorFilename in
  fault_mkdir (faults w) dir = None -> fs_files w !! dir = None ->
  fault_open (faults w) lp create_only = None ->
  fault_open (faults w) ep create_only = None ->
  fault_close (faults w) lp = None ->
  fault_close (faults w) ep = None ->
  createOutputFiles dir logFilename errorFilename w =
    Ret (lp, ep, None) (created dir lp ep w).
Proof.
  intros lp ep Hmk Hnd Hol Hoe Hcl Hce.
  unfold createOutputFiles, todayUTC, bind, time_Now, ret.
  cbn [clock clock_reads set_clock_reads].
  rewrite os_MkdirAll_ok by assumption.
  fold (dated_name (clock w (clock_reads w)) logFilename).
  fold (dated_name (clock w (S (clock_reads w))) errorFilename).
  fold (logs_path w dir logFilename) (errors_path w dir errorFilename).
  fold lp ep.
  rewrite os_OpenFile_ok by (cbn; auto).
  unfold with_defer, bind.
  rewrite os_OpenFile_ok by (cbn; auto).
  unfold ret.
  rewrite closeFile_ok; cycle 1.
  { cbn. set_solver. }
  { exact Hce. }
  rewrite closeFile_ok; cycle 1.
  { cbn. assert (next_fd w <> S (next_fd w)) by lia. set_solver. }
  { exact Hcl. }
  reflexivity.
Qed.

(** [createOutputFiles] always returns: either an error and two empty
    names, or the two resolved paths. *)
Lemma createOutputFiles_returns (dir logFilename errorFilename : string) (w : World) :
  exists r w', createOutputFiles dir logFilename errorFilename w = Ret r w' /\
    (r = (logs_path w dir logFilename, errors_path w dir errorFilename, None) \/
     exists e, r = ("", "", Some e)).
Proof.
  unfold createOutputFiles, todayUTC, bind, time_Now, ret.
  cbn [clock clock_reads set_clock_reads].
  fold (dated_name (clock w (clock_reads w)) logFilename).
  fold (dated_name (clock w (S (clock_reads w))) errorFilename).
  fold (logs_path w dir logFilename) (errors_path w dir errorFilename).
  match goal with |- context [os_MkdirAll ?d ?p ?w0] =>
    destruct (os_MkdirAll_cases d p w0) as [[e ->]| ->] end; [eauto 10|].
  match goal with |- context [os_OpenFile ?n ?fl ?p ?w0] =>
    destruct (os_OpenFile_cases n fl p w0) as [[e ->]| ->] end; [eauto 10|].
  unfold with_defer, bind.
  match goal with |- context [os_OpenFile ?n ?fl ?p ?w0] =>
    destruct (os_OpenFile_cases n fl p w0) as [[e ->]| ->] end.
  - match goal with |- context [closeFile (Some ?h) ?w0] =>
      destruct (closeFile_returns h w0) as (w1 & ->) end. eauto 10.
  - unfold ret.
    match goal with |- context [closeFile (Some ?h) ?w0] =>
      destruct (closeFile_returns h w0) as (w1 & ->) end.
    match goal with |- context [closeFile (Some ?h) ?w0] =>
      destruct (closeFile_returns h w0) as (w2 & ->) end.
    eauto 10.
Qed.

(** ** Initialisation of the singleton *)

Lemma last_char_app (a b : string) :
  b <> "" -> last_char (a +:+ b) = last_char b.
Proof.
  intros Hb. induction a as [|c a IH]; [reflexivity|].
  change (String c a +:+ b) with (String c (a +:+ b)).
  simpl last_char. rewrite IH.
  destruct (a +:+ b) eqn:E; [|reflexivity].
  destruct a; simpl in E; [contradiction | discriminate].
Qed.

(** A line whose message does not end in a newline gets one from
    [log.Printf]. *)
Lemma terminate_format_line (severity : Severity) (now : string) (process : LogEvent) :
  ends_with_newline (ev_Event process) = false ->
  terminate_line (format_line severity now process) =
    format_line severity now process +:+ newline.
Proof.
  intros Hev. unfold terminate_line.
  assert (H : ends_with_newline (format_line severity now process) = false);
    [|by rewrite H].
  unfold format_line, Sprintf_csv5. rewrite <- !append_assoc.
  destruct (ev_Event process) as [|c rest] eqn:E.
  - rewrite append_empty_r. unfold ends_with_newline.
    rewrite last_char_app by discriminate. reflexivity.
  - unfold ends_with_newline in *.
    rewrite last_char_app by discriminate. exact Hev.
Qed.

Lemma InitialiseLogger_done (dir logFilename errorFilename : string) (w : World) :
  g_once w = true -> InitialiseLogger dir logFilename errorFilename w = Ret tt w.
Proof. intros H. unfold InitialiseLogger, once_Do. by rewrite H. Qed.

Lemma created_lookup_logs (dir lp ep : string) (w : World) :
  is_Some (fs_files (created dir lp ep w) !! lp).
Proof.
  unfold created, closed, opened, dated, tick. cbn.
  unfold touch at 1.
  destruct (touch lp (fs_files w) !! ep) eqn:Hep.
  - rewrite touch_is_Some. eauto.
  - destruct (decide (ep = lp)) as [->|Hne].
    + rewrite lookup_insert_eq. eauto.
    + rewrite lookup_insert_ne by done. rewrite touch_is_Some. eauto.
Qed.

Lemma InitialiseLogger_ok (dir logFilename errorFilename : string) (w : World) :
  let lp := logs_path w dir logFilename in
  let ep := errors_path w dir (error_name logFilename errorFilename) in
  g_once w = false ->
  init_io_ok w dir lp ep ->
  lg_prefix (std_logger w) = "" ->
  InitialiseLogger dir logFilename errorFilename w =
    Ret tt (initialised dir logFilename errorFilename w).
Proof.
  intros lp ep Honce [Hmk Hnd Hol Hoe Hwl Hwe Hcl Hce] Hpre.
  unfold InitialiseLogger, once_Do. rewrite Honce.
  fold (error_name logFilename errorFilename).
  unfold bind at 1.
  rewrite createOutputFiles_ok by auto. fold lp ep.
  unfold bind, os_Getpid. cbn [os_pid set_Logger created].
  erewrite LogRequest_ok; cycle 1.
  { reflexivity. }
  { discriminate. }
  { discriminate. }
  { apply created_lookup_logs. }
  { apply Hol. }
  { exact Hwl. }
  { exact Hcl. }
  { exact Hpre. }
  unfold ret, initialised. fold lp ep.
  rewrite terminate_format_line by reflexivity.
  reflexivity.
Qed.


(** ** The handle-based revision, call by call *)

(** [Log] reads the clock, formats, and writes the line and a newline to
    the routed file; whatever the write reports is dropped. *)
Lemma Log_run (b : Blogger) (severity : Severity) (process : LogEvent) (w : World) :
  built b ->
  Log b severity process w =
    (File_Write (Log_file b severity)
       (format_line severity (Format_RFC3339 (clock w (clock_reads w))) process
        +:+ newline) ;;; ret tt) (tick w).
Proof.
  intros [He Hs]. unfold Log, Log_file, nowUTC, bind at 1, time_Now, bind at 1, ret.
  fold (tick w).
  destruct ((severity =? Emergency) || (severity =? Alert) || (severity =? Critical));
    unfold Logger_Println; [rewrite He | rewrite Hs];
    rewrite Logger_output_plain by reflexivity;
    cbn [log_New lg_prefix lg_out Writer_Write];
    change ("" +:+ ?x) with x; by rewrite terminate_line_newline.
Qed.

Lemma Log_returns (b : Blogger) (severity : Severity) (process : LogEvent) (w : World) :
  exists w', Log b severity process w = Ret tt w'.
Proof.
  unfold Log, nowUTC, bind at 1, time_Now, bind at 1, ret.
  destruct ((severity =? Emergency) || (severity =? Alert) || (severity =? Critical));
    apply Logger_output_returns.
Qed.

Lemma Log_ok (b : Blogger) (severity : Severity) (process : LogEvent)
    (h : File) (w : World) :
  built b -> Log_file b severity = Some h ->
  f_fd h ∈ open_fds w -> O_RDWR (f_flag h) = true ->
  fault_write (faults w) (f_name h) = None ->
  Log b severity process w =
    Ret tt
      (appended (f_name h)
         (format_line severity (Format_RFC3339 (clock w (clock_reads w))) process
          +:+ newline)
         (tick w)).
Proof.
  intros Hb Hh Hfd Hrw Hf. rewrite Log_run by assumption. rewrite Hh.
  unfold bind. rewrite File_Write_ok by assumption. reflexivity.
Qed.


(** [openOutputFiles] always returns: either an error and no file, or the
    two files under the resolved names. *)
Lemma openOutputFiles_returns (dir logFilename errorFilename : string) (w : World) :
  exists r w', openOutputFiles dir logFilename errorFilename w = Ret r w' /\
    ((exists e, r = (None, None, Some e)) \/
     r = (Some (mkFile (logs_path w dir logFilename) (next_fd w) create_rdwr_append),
          Some (mkFile (errors_path w dir errorFilename) (S (next_fd w)) create_rdwr_append),
          None)).
Proof.
  unfold openOutputFiles, todayUTC, bind, time_Now, ret.
  cbn [clock clock_reads set_clock_reads].
  fold (dated_name (clock w (clock_reads w)) logFilename).
  fold (dated_name (clock w (S (clock_reads w))) errorFilename).
  fold (logs_path w dir logFilename) (errors_path w dir errorFilename).
  match goal with |- context [os_MkdirAll ?d ?p ?w0] =>
    destruct (os_MkdirAll_cases d p w0) as [[e ->]| ->] end; [eauto 10|].
  match goal with |- context [os_OpenFile ?n ?fl ?p ?w0] =>
    destruct (os_OpenFile_cases n fl p w0) as [[e ->]| ->] end; [eauto 10|].
  match goal with |- context [os_OpenFile ?n ?fl ?p ?w0] =>
    destruct (os_OpenFile_cases n fl p w0) as [[e ->]| ->] end.
  - match goal with |- context [File_Close (Some ?h) ?w0] =>
      destruct (File_Close_returns h w0) as (r & w1 & -> & _) end. eauto 10.
  - eauto 10.
Qed.

Lemma new_Blogger_built (lp ep : string) (fd : nat) : built (new_Blogger lp ep fd).
Proof. split; reflexivity. Qed.



(** ** Paths that cleaning leaves as they are *)

Lemma Split_nonempty (c : ascii) (s : string) : strings_Split c s <> [].
Proof.
  destruct s as [|a s]; simpl; [discriminate|].
  destruct (Ascii.eqb a c); [discriminate|].
  destruct (strings_Split c s); discriminate.
Qed.


Lemma concat_Split (c : ascii) (s : string) :
  String.concat (String c "") (strings_Split c s) = s.
Proof.
  induction s as [|x s IH]; [reflexivity|].
  simpl strings_Split. destruct (Ascii.eqb x c) eqn:Hx.
  - apply Ascii.eqb_eq in Hx as ->.
    pose proof (Split_nonempty c s) as Hne.
    destruct (strings_Split c s) as [|y ys]; [contradiction|].
    change (String.concat (String c "") ("" :: y :: ys))
      with (String c (String.concat (String c "") (y :: ys))).
    by rewrite IH.
  - pose proof (Split_nonempty c s) as Hne.
    destruct (strings_Split c s) as [|y ys]; [contradiction|].
    destruct ys as [|z zs].
    + simpl in *. by rewrite IH.
    + change (String.concat (String c "") (String x y :: z :: zs))
        with (String x (y +:+ String c "" +:+ String.concat (String c "") (z :: zs))).
      f_equal. exact IH.
Qed.









(** ** What a call leaves in the files *)

Lemma file_content_logged_eq (path line : string) (w : World) :
  file_content (logged path line w) path = file_content w path +:+ line.
Proof.
  unfold logged, closed, appended, tick. unfold file_content at 1. world_simpl.
  rewrite lookup_insert_eq. change (default "" (Some ?x)) with x. f_equal.
  unfold file_content, opened. world_simpl. apply touch_content.
Qed.

Lemma file_content_logged_ne (path line q : string) (w : World) :
  path <> q -> file_content (logged path line w) q = file_content w q.
Proof.
  intros Hne. unfold logged, closed, appended, tick, opened.
  unfold file_content at 1. world_simpl.
  rewrite lookup_insert_ne by assumption. apply touch_content.
Qed.







Lemma file_content_dropped (q : string) (w : World) :
  file_content (dropped w) q = file_content w q.
Proof. reflexivity. Qed.

(** ** Routing *)

(** X13. The handle-based [Log] routes by rank: severities 0 to 2 reach the
    errors file only, every other severity the logs file only. *)
Lemma Log_routing_partition (b : Blogger) (severity : Severity) (process : LogEvent)
    (he hs : File) (w : World) :
  built b -> errorsFile b = Some he -> logsFile b = Some hs ->
  f_name he <> f_name hs ->
  f_fd he ∈ open_fds w -> f_fd hs ∈ open_fds w ->
  O_RDWR (f_flag he) = true -> O_RDWR (f_flag hs) = true ->
  fault_write (faults w) (f_name he) = None ->
  fault_write (faults w) (f_name hs) = None ->
  let line := format_line severity (Format_RFC3339 (clock w (clock_reads w))) process
              +:+ newline in
  exists w', Log b severity process w = Ret tt w' /\
    if (Emergency <=? severity) && (severity <=? Critical)
    then file_content w' (f_name he) = file_content w (f_name he) +:+ line /\
         file_content w' (f_name hs) = file_content w (f_name hs)
    else file_content w' (f_name hs) = file_content w (f_name hs) +:+ line /\
         file_content w' (f_name he) = file_content w (f_name he).
Proof.
  intros Hb He Hs Hne Hoe Hos Hre Hrs Hwe Hws line.
  assert (Hrank : (Emergency <=? severity) && (severity <=? Critical) =
                  (severity =? Emergency) || (severity =? Alert) || (severity =? Critical)).
  { unfold Emergency, Alert, Critical.
    destruct (0 <=? severity) eqn:E1, (severity <=? 2) eqn:E2,
      (severity =? 0) eqn:E3, (severity =? 1) eqn:E4, (severity =? 2) eqn:E5;
      try reflexivity; lia. }
  rewrite Hrank.
  destruct ((severity =? Emergency) || (severity =? Alert) || (severity =? Critical)) eqn:Er.
  - eexists. split.
    + apply (Log_ok b severity process he w); auto.
      unfold Log_file. by rewrite Er.
    + split.
      * rewrite file_content_appended_eq. reflexivity.
      * rewrite file_content_appended_ne by assumption. reflexivity.
  - eexists. split.
    + apply (Log_ok b severity process hs w); auto.
      unfold Log_file. by rewrite Er.
    + split.
      * rewrite file_content_appended_eq. reflexivity.
      * rewrite file_content_appended_ne by auto. reflexivity.
Qed.

(** C1 (the defect of [LogRequest]). The claim routes [Emergency] and
    [Alert] to the errors file. In [LogRequest] their [case] bodies are empty
    and Go does not fall through: no file is opened, the formatted line is
    offered to a nil file and dropped, every file keeps its content, and the
    deferred [closeFile] panics on the nil file. *)
Theorem LogRequest_drops_Emergency_and_Alert (process : LogEvent) (w : World) :
  LogRequest Emergency process w = Panic nil_dereference (dropped w) /\
  LogRequest Alert process w = Panic nil_dereference (dropped w) /\
  fs_files (dropped w) = fs_files w /\
  (forall q, file_content (dropped w) q = file_content w q).
Proof.
  split; [apply LogRequest_Emergency|].
  split; [apply LogRequest_Alert|].
  split; [reflexivity|]. intros q. apply file_content_dropped.
Qed.

(** [Critical] and every severity outside 0..2 are routed as claimed: the
    line lands in the file of the tier and nowhere else. *)
Lemma LogRequest_routes (severity : Severity) (process : LogEvent)
    (l : SingletonLogger.Blogger) (w : World) :
  g_Logger w = Some l -> severity <> Emergency -> severity <> Alert ->
  let path := LogRequest_path l severity in
  is_Some (fs_files w !! path) ->
  fault_open (faults w) path rdwr_append = None ->
  fault_write (faults w) path = None ->
  fault_close (faults w) path = None ->
  lg_prefix (std_logger w) = "" ->
  exists w', LogRequest severity process w = Ret None w' /\
    file_content w' path =
      file_content w path +:+
      terminate_line
        (format_line severity (Format_RFC3339 (clock w (clock_reads w))) process) /\
    (forall q, path <> q -> file_content w' q = file_content w q).
Proof.
  intros Hl He Ha path Hex Hop Hwr Hcl Hpre.
  eexists. split; [apply (LogRequest_ok severity process l w); auto|].
  split.
  - apply file_content_logged_eq.
  - intros q Hq. by apply file_content_logged_ne.
Qed.

(** ** Failures of a log call *)

(** C2, as stated, fails: on a full disk the append of [LogRequest] fails,
    yet the call returns a nil error and the file is as before; the same
    holds for [Log], which has no result at all. *)
Lemma log_hides_write_failure :
  let path := "/tmp/x/2024-01-15-app.csv" in
  g_Logger w_disk_full =
    Some (mkPathBlogger "/tmp/x/2024-01-15-err.csv" path) /\
  fault_write (faults w_disk_full) path = Some ENOSPC /\
  returned (LogRequest Notice formatting_test w_disk_full) = Some None /\
  file_content (outcome_world (LogRequest Notice formatting_test w_disk_full)) path =
    file_content w_disk_full path /\
  (exists b, returned handle_disk_full = Some (Some b, None) /\
     returned (Log b Notice formatting_test (outcome_world handle_disk_full)) = Some tt /\
     file_content
       (outcome_world (Log b Notice formatting_test (outcome_world handle_disk_full)))
       path = "").
Proof.
  cbv zeta. split; [vm_compute; reflexivity|].
  split; [vm_compute; reflexivity|].
  split; [vm_compute; reflexivity|].
  split; [vm_compute; reflexivity|].
  eexists. split; [vm_compute; reflexivity|].
  split; vm_compute; reflexivity.
Qed.

(** C2 (amended). With the singleton set up and a severity other than
    [Emergency] and [Alert]: when opening the destination file fails,
    [LogRequest] returns that error and changes nothing; once the file is
    open it returns nil whatever the append, flush and close report; it
    never panics. [Log] always returns and has no error to report. *)
Theorem LogRequest_reports_open_failure_only (severity : Severity)
    (process : LogEvent) (l : SingletonLogger.Blogger) (w : World) :
  g_Logger w = Some l -> severity <> Emergency -> severity <> Alert ->
  let path := LogRequest_path l severity in
  (forall e, os_OpenFile path rdwr_append perm_0644 w = Ret (None, Some e) w ->
     LogRequest severity process w = Ret (Some e) w) /\
  (forall h w1, os_OpenFile path rdwr_append perm_0644 w = Ret (Some h, None) w1 ->
     exists w2, LogRequest severity process w = Ret None w2) /\
  (exists r w', LogRequest severity process w = Ret r w') /\
  (forall b, exists w', Log b severity process w = Ret tt w').
Proof.
  intros Hl He Ha path. split; [|split; [|split]].
  - intros e Hop. by apply (LogRequest_open_error severity process l w w None e).
  - intros h w1 Hop. by apply (LogRequest_opened_nil severity process l w w1 h).
  - destruct (os_OpenFile_cases path rdwr_append perm_0644 w) as [[e Hop]|Hop].
    + exists (Some e), w.
      by apply (LogRequest_open_error severity process l w w None e).
    + destruct (LogRequest_opened_nil severity process l w _ _ Hl He Ha Hop) as [w2 H2].
      eauto.
  - intros b. apply Log_returns.
Qed.

(** The errors file is missing: opening it for a [Critical] event fails
    and the error comes back. *)
Lemma LogRequest_reports_open_failure_only_witness :
  LogRequest Critical formatting_test w_errors_file_gone =
    Ret (Some (PathError "open" "/tmp/x/gone.csv" ENOENT)) w_errors_file_gone.
Proof.
  refine (proj1 (LogRequest_reports_open_failure_only Critical formatting_test
                   (mkPathBlogger "/tmp/x/gone.csv" "/tmp/x/2024-01-15-app.csv")
                   w_errors_file_gone _ _ _) _ _).
  - reflexivity.
  - discriminate.
  - discriminate.
  - vm_compute. reflexivity.
Defined.

(** ** Failures of the initialisation *)






(** ** The format of a line *)

Lemma Severity_ToString_no_comma (s : Z) :
  contains_char "," (Severity_ToString s) = false.
Proof.
  pose proof (Severity_ToString_cases s) as H. simpl in H.
  repeat (destruct H as [<-|H]; [reflexivity|]). contradiction.
Qed.

Lemma ProcessType_ToString_no_comma (p : Z) :
  contains_char "," (ProcessType_ToString p) = false.
Proof.
  pose proof (ProcessType_ToString_cases p) as H. simpl in H.
  repeat (destruct H as [<-|H]; [reflexivity|]). contradiction.
Qed.




(** C10. Outside the six severities and the three process types the name
    is the empty string, the zero value of the map lookup; nothing fails. The
    line of a log call then starts with an empty severity field, or has an
    empty process-type field, and [Log] writes it to the logs file. *)
Theorem names_outside_the_constants_are_empty (severity p : Z) :
  severity < Emergency \/ Trace < severity ->
  p < OsProcess \/ RequestProcess < p ->
  Severity_ToString severity = "" /\
  ProcessType_ToString p = "" /\
  (forall now process,
     format_line severity now process =
       "," +:+ now +:+ "," +:+ ProcessType_ToString (ev_ProcessType process) +:+ "," +:+
       ev_ProcessId process +:+ "," +:+ ev_Event process) /\
  (forall s now pid msg,
     format_line s now (mkLogEvent p pid msg) =
       Severity_ToString s +:+ "," +:+ now +:+ ",," +:+ pid +:+ "," +:+ msg) /\
  (forall b process w, built b ->
     Log b severity process w =
       (File_Write (logsFile b)
          (format_line severity (Format_RFC3339 (clock w (clock_reads w))) process
           +:+ newline) ;;; ret tt) (tick w)).
Proof.
  intros Hs Hp.
  pose proof (Severity_ToString_outside severity Hs) as Es.
  pose proof (ProcessType_ToString_outside p Hp) as Ep.
  split; [exact Es|]. split; [exact Ep|].
  split; [|split].
  - intros now process. unfold format_line, Sprintf_csv5.
    fold (Severity_ToString severity). rewrite Es. reflexivity.
  - intros s now pid msg. unfold format_line, Sprintf_csv5.
    cbn [ev_ProcessType ev_ProcessId ev_Event].
    fold (ProcessType_ToString p). rewrite Ep. reflexivity.
  - intros b process w Hb. rewrite Log_run by assumption.
    unfold Log_file.
    assert (E : (severity =? Emergency) || (severity =? Alert) || (severity =? Critical) = false).
    { unfold Emergency, Alert, Critical, Trace in *.
      destruct (severity =? 0) eqn:E1, (severity =? 1) eqn:E2, (severity =? 2) eqn:E3;
        try reflexivity; lia. }
    by rewrite E.
Qed.

Lemma names_outside_the_constants_are_empty_witness :
  Severity_ToString 6 = "" /\ ProcessType_ToString (-1) = "" /\
  format_line 6 "now" (mkLogEvent (-1) "7" "msg") = ",now,,7,msg".
Proof.
  assert (H6 : 6 < Emergency \/ Trace < 6) by (right; reflexivity).
  assert (Hm : -1 < OsProcess \/ RequestProcess < -1) by (left; reflexivity).
  destruct (names_outside_the_constants_are_empty 6 (-1) H6 Hm) as (Es & Ep & Hl & _).
  split; [exact Es|]. split; [exact Ep|].
  rewrite Hl. cbn [ev_ProcessType]. rewrite Ep. reflexivity.
Defined.

(** ** Initialisation: once, with one bootstrap line *)

(** After a call of [InitialiseLogger] that returned, the [sync.Once] is
    spent. *)
Lemma InitialiseLogger_spends_once (dir logFilename errorFilename : string)
    (w w1 : World) :
  InitialiseLogger dir logFilename errorFilename w = Ret tt w1 -> g_once w1 = true.
Proof.
  unfold InitialiseLogger, once_Do.
  destruct (g_once w) eqn:Honce.
  - intros [= <-]. exact Honce.
  - match goal with |- context [match ?f w with _ => _ end] => destruct (f w) end;
      intros [= <-]; reflexivity.
Qed.


Lemma w0_init_io_ok (dir lp ep : string) : init_io_ok w0 dir lp ep.
Proof. split; reflexivity. Qed.





(** ** The two target paths *)




(** ** The default error name *)

(** C7 (the defect of [LogRequest] again). With an empty error name both
    paths of the singleton are the file named from the logs name, and a
    [Critical] event is appended to it, as the claim says. An [Emergency]
    event is not: the call panics and the file holds the bootstrap line
    only. The handle-based logger writes the same event to the file. *)
Theorem default_error_name_Emergency_dropped :
  let file := "/tmp/x/2024-01-15-app.csv" in
  g_Logger w_single_file = Some (mkPathBlogger file file) /\
  file_content w_single_file file = bootstrap_noon /\
  file_content (outcome_world (LogRequest Critical boom w_single_file)) file =
    bootstrap_noon +:+ "CRITICAL,2024-01-15T12:00:00Z,Operating System,1,boom" +:+ newline /\
  LogRequest Emergency boom w_single_file = Panic nil_dereference (dropped w_single_file) /\
  file_content (dropped w_single_file) file = bootstrap_noon /\
  (exists b w1 w2,
     NewLogger "/tmp/x" "app" "" w0 = Ret (Some b, None) w1 /\
     Log b Emergency boom w1 = Ret tt w2 /\
     file_content w2 file =
       bootstrap_noon +:+ "EMERGENCY,2024-01-15T12:00:00Z,Operating System,1,boom" +:+ newline).
Proof.
  cbv zeta.
  split; [vm_compute; reflexivity|].
  split; [vm_compute; reflexivity|].
  split; [vm_compute; reflexivity|].
  split; [apply LogRequest_Emergency|].
  split; [vm_compute; reflexivity|].
  eexists. eexists. eexists.
  split; [vm_compute; reflexivity|].
  split; vm_compute; reflexivity.
Qed.

(** The two names are dated by two readings of the clock. When midnight
    falls between them, an empty error name gives two files. *)
Lemma default_error_name_across_midnight :
  g_Logger (outcome_world
              (InitialiseLogger "/tmp/x" "app" "" (fresh_world around_midnight no_faults))) =
    Some (mkPathBlogger "/tmp/x/2025-01-01-app.csv" "/tmp/x/2024-12-31-app.csv").
Proof. vm_compute. reflexivity. Qed.

(** ** Concurrent calls *)

(** Run without interruption, the seven steps of a call are [LogRequest]:
    same result, same panic, same world. *)
Lemma run_call_is_LogRequest (severity : Severity) (process : LogEvent) (w : World) :
  outcome_map call_result (run_call 7 (start severity process) w) =
  outcome_map Some (LogRequest severity process w).
Proof.
  unfold LogRequest, start.
  cbn [run_call]. unfold LogRequest_step at 1. cbn [c_stage c_severity c_process].
  unfold bind at 1. unfold bind at 1. unfold bind at 7.
  destruct (LogRequest_switch severity w) as [[f [e|]] w1|m w1|n w1];
    [reflexivity| |reflexivity|reflexivity].
  lazy beta iota zeta delta
    [bind ret run_call LogRequest_step with_defer log_SetFlags log_SetOutput
     nowUTC time_Now at_stage c_stage c_file c_now c_severity c_process].
  match goal with |- context [log_Printf ?s ?w0] =>
    destruct (log_Printf_returns s w0) as (w2 & ->) end.
  destruct (File_Sync_returns f w2) as (r & ->).
  destruct (closeFile f w2); reflexivity.
Qed.

(** C9 (a defect of [LogRequest]). Every call redirects the one standard
    logger of package [log] and prints through it afterwards. Two calls,
    [Critical] and [Notice], run one after the other put one line in each
    file. Interleaved, the [Critical] line is written to the logs file when
    the other call redirects the logger in between, and is written nowhere
    when the other call has closed its file by then; both calls return nil
    in either case. *)
Theorem concurrent_LogRequest_misroutes_and_loses :
  let errors := "/tmp/x/2024-01-15-err.csv" in
  let logs := "/tmp/x/2024-01-15-app.csv" in
  let critical := "CRITICAL,2024-01-15T12:00:00Z,Operating System,1,boom" +:+ newline in
  let notice := "NOTICE,2024-01-15T12:00:00Z,Request,999,FormattingTest" +:+ newline in
  let calls := [start Critical boom; start Notice formatting_test] in
  let finished (o : Outcome (list Call)) :=
    returned (outcome_map (map call_result) o) = Some [Some None; Some None] in
  g_Logger w_two_files = Some (mkPathBlogger errors logs) /\
  (finished (interleave one_then_other calls w_two_files) /\
   file_content (outcome_world (interleave one_then_other calls w_two_files)) errors
     = critical /\
   file_content (outcome_world (interleave one_then_other calls w_two_files)) logs
     = bootstrap_noon +:+ notice) /\
  (finished (interleave redirected_in_between calls w_two_files) /\
   file_content (outcome_world (interleave redirected_in_between calls w_two_files)) errors
     = "" /\
   file_content (outcome_world (interleave redirected_in_between calls w_two_files)) logs
     = bootstrap_noon +:+ critical +:+ notice) /\
  (finished (interleave closed_in_between calls w_two_files) /\
   file_content (outcome_world (interleave closed_in_between calls w_two_files)) errors
     = "" /\
   file_content (outcome_world (interleave closed_in_between calls w_two_files)) logs
     = bootstrap_noon +:+ notice).
Proof.
  cbv zeta.
  split; [vm_compute; reflexivity|].
  repeat split; vm_compute; reflexivity.
Qed.

(** ** What every call keeps *)

Lemma keeps_ret {A} (R : World -> World -> Prop) (a : A) :
  Reflexive R -> keeps R (ret a).
Proof. intros HR w. apply HR. Qed.

Lemma keeps_panic {A} (R : World -> World -> Prop) (m : string) :
  Reflexive R -> keeps R (@panic A m).
Proof. intros HR w. apply HR. Qed.

Lemma keeps_bind {A B} (R : World -> World -> Prop) (c : Go A) (k : A -> Go B) :
  Transitive R -> keeps R c -> (forall a, keeps R (k a)) -> keeps R (bind c k).
Proof.
  intros HT Hc Hk w. unfold bind. specialize (Hc w).
  destruct (c w) as [a w1|m w1|n w1]; cbn [outcome_world] in *; [|assumption..].
  exact (HT _ _ _ Hc (Hk a w1)).
Qed.

Lemma keeps_with_defer {A} (R : World -> World -> Prop) (d : Go unit) (body : Go A) :
  Transitive R -> keeps R d -> keeps R body -> keeps R (with_defer d body).
Proof.
  intros HT Hd Hb w. unfold with_defer. specialize (Hb w).
  destruct (body w) as [a w1|m w1|n w1]; cbn [outcome_world] in *; [| |assumption];
    specialize (Hd w1); destruct (d w1); cbn [outcome_world] in *;
    exact (HT _ _ _ Hb Hd).
Qed.

#[local] Instance extends_refl : Reflexive extends.
Proof. intros w q c H. exists "". by rewrite append_empty_r. Qed.

#[local] Instance extends_trans : Transitive extends.
Proof.
  intros w1 w2 w3 H12 H23 q c H.
  destruct (H12 q c H) as [s1 E1]. destruct (H23 q _ E1) as [s2 E2].
  exists (s1 +:+ s2). by rewrite E2, append_assoc.
Qed.






























(** ** Steps that leave a part of the world alone *)

Section blind.

Context (R : World -> World -> Prop) `{HB : !Blind R}.

#[local] Existing Instance Blind_refl.

#[local] Existing Instance Blind_trans.

Lemma File_Write_blind (f : FilePtr) (data : string) : keeps R (File_Write f data).
Proof.
  intros w. destruct (File_Write_returns f data w) as (r & w' & -> & [->|(h & -> & ->)]);
    cbn [outcome_world]; [reflexivity | apply Blind_files].
Qed.

Lemma File_Sync_blind (f : FilePtr) : keeps R (File_Sync f).
Proof. intros w. destruct (File_Sync_returns f w) as (r & ->). reflexivity. Qed.

Lemma File_Name_blind (f : FilePtr) : keeps R (File_Name f).
Proof. destruct f; intros w; reflexivity. Qed.

Lemma time_Now_blind : keeps R time_Now.
Proof. intros w. apply Blind_clock_reads. Qed.

Lemma Logger_output_blind (l : log_Logger) (s : string) : keeps R (Logger_output l s).
Proof.
  unfold Logger_output. apply keeps_bind; [apply _| |].
  - destruct (lg_flags l =? 0); [apply keeps_ret; apply _|].
    apply keeps_bind; [apply _|apply time_Now_blind|].
    intros t. apply keeps_ret; apply _.
  - intros hdr. apply keeps_bind; [apply _| |intros; apply keeps_ret; apply _].
    destruct (lg_out l) as [|f]; [|apply File_Write_blind].
    intros w. apply Blind_stderr.
Qed.

Lemma log_Printf_blind (s : string) : keeps R (log_Printf s).
Proof. intros w. apply Logger_output_blind. Qed.

Lemma os_MkdirAll_blind (dir : string) (perm : Z) : keeps R (os_MkdirAll dir perm).
Proof.
  intros w. destruct (os_MkdirAll_cases dir perm w) as [[e ->]| ->];
    [reflexivity | apply Blind_dirs].
Qed.

Lemma os_Getpid_blind : keeps R os_Getpid.
Proof. intros w. reflexivity. Qed.

Lemma todayUTC_blind : keeps R todayUTC.
Proof.
  unfold todayUTC. apply keeps_bind; [apply _|apply time_Now_blind|].
  intros t. apply keeps_ret; apply _.
Qed.

Lemma nowUTC_blind : keeps R nowUTC.
Proof.
  unfold nowUTC. apply keeps_bind; [apply _|apply time_Now_blind|].
  intros t. apply keeps_ret; apply _.
Qed.

Lemma closeFile_nil_blind : keeps R (closeFile None).
Proof. intros w. reflexivity. Qed.

End blind.

Ltac keeps_blind :=
  repeat first
    [ apply keeps_ret; apply _
    | apply log_Printf_blind; apply _ | apply os_MkdirAll_blind; apply _
    | apply File_Sync_blind; apply _ | apply File_Write_blind; apply _
    | apply File_Name_blind; apply _
    | apply todayUTC_blind; apply _ | apply nowUTC_blind; apply _
    | apply Logger_output_blind; apply _
    | apply os_Getpid_blind; apply _ | apply closeFile_nil_blind; apply _
    | apply keeps_with_defer; [apply _| |]
    | apply keeps_bind; [apply _| |intros ?]
    | match goal with
      | |- keeps _ (match ?x with _ => _ end) => destruct x
      end ].

(** ** Descriptors *)

#[local] Instance same_fds_refl : Reflexive same_fds.
Proof. intros w. split; reflexivity. Qed.

#[local] Instance same_fds_trans : Transitive same_fds.
Proof. intros w1 w2 w3 [H1 H2] [H3 H4]. split; congruence. Qed.

#[local] Instance same_fds_blind : Blind same_fds.
Proof. split; try apply _; intros; split; reflexivity. Qed.

Lemma log_SetFlags_same_fds (n : Z) : keeps same_fds (log_SetFlags n).
Proof. intros w. split; reflexivity. Qed.

Lemma log_SetOutput_same_fds (f : FilePtr) : keeps same_fds (log_SetOutput f).
Proof. intros w. split; reflexivity. Qed.

Ltac keeps_same_fds :=
  repeat first
    [ apply log_SetFlags_same_fds | apply log_SetOutput_same_fds | progress keeps_blind ].

(** *** Calls that do not end the process *)

Lemma never_exits_ret {A} (a : A) : never_exits (ret a).
Proof. intros w n w'. discriminate. Qed.

Lemma never_exits_bind {A B} (c : Go A) (k : A -> Go B) :
  never_exits c -> (forall a, never_exits (k a)) -> never_exits (bind c k).
Proof.
  intros Hc Hk w n w'. unfold bind. specialize (Hc w).
  destruct (c w) as [a w1|m w1|n1 w1]; [apply Hk|discriminate|].
  exfalso. by eapply Hc.
Qed.

Lemma never_exits_with_defer {A} (d : Go unit) (body : Go A) :
  never_exits d -> never_exits body -> never_exits (with_defer d body).
Proof.
  intros Hd Hb w n w'. unfold with_defer. specialize (Hb w).
  destruct (body w) as [a w1|m w1|n1 w1]; [| |exfalso; by eapply Hb];
    specialize (Hd w1); destruct (d w1); first [discriminate | exfalso; by eapply Hd].
Qed.

Lemma never_exits_returns {A} (c : Go A) :
  (forall w, exists r w', c w = Ret r w') -> never_exits c.
Proof. intros H w n w'. destruct (H w) as (r & w1 & ->). discriminate. Qed.

Lemma Logger_output_never_exits (l : log_Logger) (s : string) :
  never_exits (Logger_output l s).
Proof.
  apply never_exits_returns. intros w.
  destruct (Logger_output_returns l s w) as (w' & ->). by eexists _, _.
Qed.

Lemma log_Printf_never_exits (s : string) : never_exits (log_Printf s).
Proof. intros w. apply Logger_output_never_exits. Qed.

Lemma time_Now_never_exits : never_exits time_Now.
Proof. intros w n w'. discriminate. Qed.

Lemma todayUTC_never_exits : never_exits todayUTC.
Proof. intros w n w'. discriminate. Qed.

Lemma nowUTC_never_exits : never_exits nowUTC.
Proof. intros w n w'. discriminate. Qed.

Lemma os_Getpid_never_exits : never_exits os_Getpid.
Proof. intros w n w'. discriminate. Qed.

Lemma log_SetFlags_never_exits (n : Z) : never_exits (log_SetFlags n).
Proof. intros w k w'. discriminate. Qed.

Lemma log_SetOutput_never_exits (f : FilePtr) : never_exits (log_SetOutput f).
Proof. intros w k w'. discriminate. Qed.

Lemma File_Write_never_exits (f : FilePtr) (data : string) : never_exits (File_Write f data).
Proof.
  apply never_exits_returns. intros w.
  destruct (File_Write_returns f data w) as (r & w' & -> & _). by eexists _, _.
Qed.

Lemma File_Sync_never_exits (f : FilePtr) : never_exits (File_Sync f).
Proof.
  apply never_exits_returns. intros w.
  destruct (File_Sync_returns f w) as (r & ->). by eexists _, _.
Qed.

Lemma File_Close_never_exits (f : FilePtr) : never_exits (File_Close f).
Proof.
  destruct f as [h|]; [|intros w n w'; discriminate].
  apply never_exits_returns. intros w.
  destruct (File_Close_returns h w) as (r & w' & -> & _). by eexists _, _.
Qed.

Lemma File_Name_never_exits (f : FilePtr) : never_exits (File_Name f).
Proof. destruct f; intros w n w'; discriminate. Qed.

Lemma os_OpenFile_never_exits (name : string) (flag : OpenFlags) (perm : Z) :
  never_exits (os_OpenFile name flag perm).
Proof.
  intros w n w'. destruct (os_OpenFile_cases name flag perm w) as [[e ->]| ->]; discriminate.
Qed.

Lemma os_MkdirAll_never_exits (dir : string) (perm : Z) : never_exits (os_MkdirAll dir perm).
Proof.
  intros w n w'. destruct (os_MkdirAll_cases dir perm w) as [[e ->]| ->]; discriminate.
Qed.

Lemma Logger_field_never_exits (field : SingletonLogger.Blogger -> string) :
  never_exits (Logger_field field).
Proof. intros w n w'. unfold Logger_field. destruct (g_Logger w); discriminate. Qed.

Ltac never_exits_go :=
  repeat first
    [ apply never_exits_ret
    | apply log_Printf_never_exits | apply log_SetFlags_never_exits
    | apply log_SetOutput_never_exits | apply os_MkdirAll_never_exits
    | apply os_OpenFile_never_exits | apply File_Close_never_exits
    | apply File_Sync_never_exits | apply File_Write_never_exits | apply File_Name_never_exits
    | apply todayUTC_never_exits | apply nowUTC_never_exits | apply Logger_output_never_exits
    | apply os_Getpid_never_exits | apply Logger_field_never_exits
    | apply never_exits_with_defer
    | apply never_exits_bind; [|intros ?]
    | match goal with
      | |- never_exits (match ?x with _ => _ end) => destruct x
      | |- never_exits (panic _) => intros ? ? ?; discriminate
      end ].

Lemma closeFile_never_exits (f : FilePtr) : never_exits (closeFile f).
Proof. unfold closeFile. never_exits_go. Qed.

Lemma createOutputFiles_never_exits (dir lf ef : string) :
  never_exits (createOutputFiles dir lf ef).
Proof. unfold createOutputFiles. never_exits_go; apply closeFile_never_exits. Qed.

Lemma LogRequest_never_exits (severity : Severity) (process : LogEvent) :
  never_exits (LogRequest severity process).
Proof.
  unfold LogRequest, LogRequest_switch. never_exits_go; apply closeFile_never_exits.
Qed.

(** *** Opening and closing *)

Lemma fds_fresh_opened (name : string) (w : World) :
  fds_fresh w -> fds_fresh (opened name w).
Proof.
  intros Hf fd. unfold opened. world_simpl. intros [->%elem_of_singleton|H]%elem_of_union.
  - lia.
  - specialize (Hf fd H). lia.
Qed.

Lemma fds_fresh_next (w : World) : fds_fresh w -> next_fd w ∉ open_fds w.
Proof. intros Hf H. specialize (Hf _ H). lia. Qed.

Lemma fds_fresh_same (w w' : World) : same_fds w w' -> fds_fresh w -> fds_fresh w'.
Proof. intros [Ho Hn] Hf fd. rewrite Ho, Hn. apply Hf. Qed.

(** [closeFile] on a file returns, and the descriptor of the file is not
    open afterwards; no other descriptor is touched. *)
Lemma closeFile_fds (h : File) (w : World) :
  exists w', closeFile (Some h) w = Ret tt w' /\
    open_fds w' = open_fds w ∖ {[f_fd h]} /\ next_fd w' = next_fd w.
Proof.
  unfold closeFile, bind.
  destruct (File_Close_returns h w) as (r & w1 & -> & Hw & Hn).
  assert (H1 : open_fds w1 = open_fds w ∖ {[f_fd h]} /\ next_fd w1 = next_fd w).
  { destruct Hw as [->| ->]; [|split; reflexivity].
    split; [|reflexivity]. apply set_eq. intros x. rewrite elem_of_difference, elem_of_singleton.
    split; [|tauto]. intros Hx. split; [assumption|]. intros ->. contradiction. }
  destruct r as [e|]; [|by exists w1].
  cbn [File_Name ret].
  match goal with |- context [log_Printf ?s w1] =>
    destruct (log_Printf_returns s w1) as (w2 & E);
    pose proof (log_Printf_blind same_fds s w1) as Hs;
    rewrite E in *; cbn [outcome_world] in Hs end.
  exists w2. destruct Hs as [Ho Hx], H1 as [H1 H2]. repeat split; congruence.
Qed.

(** *** Tidy calls *)

Lemma tidy_keeps {A} (c : Go A) : never_exits c -> keeps same_fds c -> tidy c.
Proof.
  intros He Hk w Hf. split; [apply He|]. destruct (Hk w) as [Ho Hn].
  split; [assumption|]. by apply (fds_fresh_same w).
Qed.

Lemma tidy_bind {A B} (c : Go A) (k : A -> Go B) :
  tidy c -> (forall a, tidy (k a)) -> tidy (bind c k).
Proof.
  intros Hc Hk w Hf. unfold bind. destruct (Hc w Hf) as (He & Ho & Hf1).
  destruct (c w) as [a w1|m w1|n w1]; cbn [outcome_world] in *.
  - destruct (Hk a w1 Hf1) as (He2 & Ho2 & Hf2). repeat split; [assumption|congruence|assumption].
  - repeat split; [discriminate|assumption..].
  - exfalso. by eapply He.
Qed.

(** Opening a file and deferring its close around a tidy body is tidy. *)
Lemma tidy_open_defer_close {A} (name : string) (flag : OpenFlags) (perm : Z)
    (k : FilePtr * option error -> Go A) :
  (forall e, tidy (k (None, Some e))) ->
  (forall h, exists body, k (Some h, None) = with_defer (closeFile (Some h)) body /\ tidy body) ->
  tidy (bind (os_OpenFile name flag perm) k).
Proof.
  intros Herr Hok w Hf. unfold bind.
  destruct (os_OpenFile_cases name flag perm w) as [[e ->]| ->]; [by apply Herr|].
  destruct (Hok (mkFile name (next_fd w) flag)) as (body & -> & Hb).
  pose proof (fds_fresh_next w Hf) as Hnew.
  destruct (Hb (opened name w) (fds_fresh_opened name w Hf)) as (He & Ho & Hf1).
  unfold with_defer.
  destruct (body (opened name w)) as [a w1|m w1|n w1]; cbn [outcome_world] in *;
    [| |exfalso; by eapply He];
    destruct (closeFile_fds (mkFile name (next_fd w) flag) w1) as (w2 & -> & Ho2 & Hn2);
    cbn [f_fd outcome_world] in *;
    (split; [discriminate|]);
    (assert (E : open_fds w2 = open_fds w);
     [ rewrite Ho2, Ho; unfold opened; world_simpl; apply set_eq; intros x;
       rewrite elem_of_difference, elem_of_union, elem_of_singleton;
       split; [intros [[->|Hx] Hne]; [contradiction|assumption]
              |intros Hx; split; [by right|intros ->; contradiction]]
     | split; [exact E|];
       intros fd; rewrite Ho2, Hn2; intros [Hx _]%elem_of_difference; by apply Hf1 ]).
Qed.

Lemma tidy_ret {A} (a : A) : tidy (ret a).
Proof. apply tidy_keeps; [apply never_exits_ret|apply keeps_ret; apply _]. Qed.

Lemma createOutputFiles_tidy (dir lf ef : string) : tidy (createOutputFiles dir lf ef).
Proof.
  unfold createOutputFiles.
  apply tidy_bind; [apply tidy_keeps; [never_exits_go|keeps_same_fds]|intros today1].
  apply tidy_bind; [apply tidy_keeps; [never_exits_go|keeps_same_fds]|intros today2].
  apply tidy_bind; [apply tidy_keeps; [never_exits_go|keeps_same_fds]|intros [e|]];
    [apply tidy_ret|].
  apply tidy_open_defer_close; [intros e; apply tidy_ret|].
  intros h. eexists. split; [reflexivity|].
  apply tidy_open_defer_close; [intros e; apply tidy_ret|].
  intros h2. eexists. split; [reflexivity|]. apply tidy_ret.
Qed.

Lemma LogRequest_tidy (severity : Severity) (process : LogEvent) :
  tidy (LogRequest severity process).
Proof.
  assert (Hnil : tidy
    (with_defer (closeFile None)
       (log_SetFlags 0 ;;; log_SetOutput None ;;; now <- nowUTC ;;
        log_Printf (format_line severity now process) ;;; File_Sync None ;;;
        ret (None : option error)))).
  { apply tidy_keeps; [never_exits_go; apply closeFile_never_exits|keeps_same_fds]. }
  assert (Hopen : forall path, tidy
    (r <- os_OpenFile path rdwr_append perm_0644 ;;
     match r with
     | (_, Some e) => ret (Some e)
     | (file, None) =>
         with_defer (closeFile file)
           (log_SetFlags 0 ;;; log_SetOutput file ;;; now <- nowUTC ;;
            log_Printf (format_line severity now process) ;;; File_Sync file ;;; ret None)
     end)).
  { intros path. apply tidy_open_defer_close; [intros e; apply tidy_ret|].
    intros h. eexists. split; [reflexivity|].
    apply tidy_keeps; [never_exits_go|keeps_same_fds]. }
  intros w Hf.
  destruct (Z.eqb_spec severity Emergency) as [->|Hne1]; [exact (Hnil w Hf)|].
  destruct (Z.eqb_spec severity Alert) as [->|Hne2]; [exact (Hnil w Hf)|].
  destruct (g_Logger w) as [l|] eqn:Eg.
  - assert (E : LogRequest severity process w =
               bind (os_OpenFile (LogRequest_path l severity) rdwr_append perm_0644)
                 (fun r => match r with
                  | (_, Some e) => ret (Some e)
                  | (file, None) =>
                      with_defer (closeFile file)
                        (log_SetFlags 0 ;;; log_SetOutput file ;;; now <- nowUTC ;;
                         log_Printf (format_line severity now process) ;;;
                         File_Sync file ;;; ret None)
                  end) w).
    { unfold LogRequest, bind at 1.
      rewrite (LogRequest_switch_opens severity l w Eg Hne1 Hne2). reflexivity. }
    rewrite E. exact (Hopen _ w Hf).
  - assert (E : LogRequest severity process w = Panic nil_dereference w).
    { unfold LogRequest, LogRequest_switch.
      rewrite (proj2 (Z.eqb_neq _ _) Hne1), (proj2 (Z.eqb_neq _ _) Hne2).
      destruct (severity =? Critical); unfold bind, Logger_field; by rewrite Eg. }
    rewrite E. repeat split; [discriminate|assumption].
Qed.

Lemma InitialiseLogger_fds (dir lf ef : string) (w : World) :
  fds_fresh w ->
  open_fds (outcome_world (InitialiseLogger dir lf ef w)) = open_fds w /\
  fds_fresh (outcome_world (InitialiseLogger dir lf ef w)).
Proof.
  intros Hf. remember (InitialiseLogger dir lf ef w) as o eqn:Eo.
  unfold InitialiseLogger, once_Do in Eo. destruct (g_once w); [by subst o|].
  unfold bind at 1 in Eo.
  match type of Eo with context [createOutputFiles ?d ?l ?e w] =>
    destruct (createOutputFiles_tidy d l e w Hf) as (He & Ho & Hf1);
    destruct (createOutputFiles d l e w) as [[[lp ep] [err|]] w1|m w1|n w1];
    cbn [outcome_world] in * end.
  - unfold log_Fatalf, bind in Eo.
    match type of Eo with context [log_Printf ?s w1] =>
      destruct (log_Printf_returns s w1) as (w2 & E);
      pose proof (log_Printf_blind same_fds s w1) as Hs; rewrite E in *;
      cbn [outcome_world] in Hs end.
    subst o. cbn [os_Exit outcome_world].
    split; [destruct Hs; congruence|]. exact (fds_fresh_same w1 w2 Hs Hf1).
  - unfold bind at 1 2 in Eo. cbn [os_Getpid] in Eo. unfold bind in Eo.
    match type of Eo with context [LogRequest ?s ?p ?w2] =>
      destruct (LogRequest_tidy s p w2) as (He2 & Ho2 & Hf2); [exact Hf1|];
      destruct (LogRequest s p w2) as [r w3|m w3|n w3]; cbn [outcome_world ret] in * end;
      [subst o; cbn [outcome_world]; split; [rewrite <- Ho; exact Ho2|exact Hf2]..
      |exfalso; by eapply He2].
  - subst o. by split.
  - exfalso. by eapply He.
Qed.

(** ** Descriptors of the handle-based logger *)

(** [File.Close] returns; afterwards the descriptor of the file is not
    open, and no other descriptor was touched. *)
Lemma File_Close_fds (f : FilePtr) (w : World) :
  exists r w', File_Close f w = Ret r w' /\
    open_fds w' = open_fds w ∖ File_fds f /\ next_fd w' = next_fd w /\
    fs_files w' = fs_files w /\ std_logger w' = std_logger w /\
    stderr_out w' = stderr_out w.
Proof.
  destruct f as [h|].
  - destruct (File_Close_returns h w) as (r & w1 & E & Hw & Hn).
    exists r, w1. split; [exact E|]. cbn [File_fds].
    destruct Hw as [->| ->]; [|by repeat split].
    repeat split. apply set_eq. intros x. rewrite elem_of_difference, elem_of_singleton.
    split; [|tauto]. intros Hx. split; [assumption|]. intros ->. contradiction.
  - exists (Some ErrInvalid), w. repeat split. cbn [File_fds]. apply set_eq. intros x.
    rewrite elem_of_difference. split; [|tauto]. intros Hx. split; [assumption|].
    apply not_elem_of_empty.
Qed.

Lemma Log_same_fds (b : Blogger) (severity : Severity) (process : LogEvent) :
  keeps same_fds (Log b severity process).
Proof. unfold Log, Logger_Println. keeps_same_fds. Qed.

(** What [openOutputFiles] leaves open: nothing when it reports an error,
    the two files it returns otherwise. *)
Lemma openOutputFiles_fds (dir lf ef : string) (w : World) :
  fds_fresh w ->
  exists r w', openOutputFiles dir lf ef w = Ret r w' /\ fds_fresh w' /\
    ((exists e, r = (None, None, Some e) /\ open_fds w' = open_fds w) \/
     (r = (Some (mkFile (logs_path w dir lf) (next_fd w) create_rdwr_append),
           Some (mkFile (errors_path w dir ef) (S (next_fd w)) create_rdwr_append),
           None) /\
      open_fds w' = {[S (next_fd w)]} ∪ ({[next_fd w]} ∪ open_fds w))).
Proof.
  intros Hf.
  unfold openOutputFiles, todayUTC, bind, time_Now, ret.
  cbn [clock clock_reads set_clock_reads].
  fold (dated_name (clock w (clock_reads w)) lf).
  fold (dated_name (clock w (S (clock_reads w))) ef).
  fold (logs_path w dir lf) (errors_path w dir ef).
  match goal with |- context [os_MkdirAll ?d ?p ?w0] =>
    assert (Hd : fds_fresh w0) by exact Hf;
    destruct (os_MkdirAll_cases d p w0) as [[e ->]| ->] end.
  { eexists _, _. split; [reflexivity|]. split; [exact Hd|]. left. by exists e. }
  match goal with |- context [os_OpenFile ?n ?fl ?p ?w0] => set (wd := w0) end.
  assert (Hwd : fds_fresh wd) by exact Hf.
  assert (Eo : open_fds wd = open_fds w) by reflexivity.
  assert (En : next_fd wd = next_fd w) by reflexivity.
  clearbody wd.
  destruct (os_OpenFile_cases (logs_path w dir lf) create_rdwr_append perm_0644 wd)
    as [[e ->]| ->].
  { eexists _, _. split; [reflexivity|]. split; [exact Hwd|]. left. by exists e. }
  pose proof (fds_fresh_opened (logs_path w dir lf) wd Hwd) as H1.
  assert (Eo1 : open_fds (opened (logs_path w dir lf) wd) = {[next_fd w]} ∪ open_fds w)
    by (unfold opened; world_simpl; by rewrite Eo, En).
  assert (En1 : next_fd (opened (logs_path w dir lf) wd) = S (next_fd w))
    by (unfold opened; world_simpl; by rewrite En).
  set (w1 := opened (logs_path w dir lf) wd) in *. clearbody w1.
  destruct (os_OpenFile_cases (errors_path w dir ef) create_rdwr_append perm_0644 w1)
    as [[e ->]| ->].
  - destruct (File_Close_fds
                (Some (mkFile (logs_path w dir lf) (next_fd wd) create_rdwr_append)) w1)
      as (r & w2 & -> & Ho & Hn & _).
    cbn [File_fds f_fd] in Ho. rewrite En in Ho.
    assert (E2 : open_fds w2 = open_fds w).
    { rewrite Ho, Eo1. apply set_eq. intros x.
      rewrite elem_of_difference, elem_of_union, elem_of_singleton.
      pose proof (fds_fresh_next w Hf).
      split; [intros [[->|Hx] Hne]; [contradiction|assumption]
             |intros Hx; split; [by right|intros ->; contradiction]]. }
    eexists _, _. split; [reflexivity|]. split.
    + intros fd. rewrite E2, Hn, En1. intros Hx. specialize (Hf fd Hx). lia.
    + left. by exists e.
  - eexists _, _. split; [reflexivity|]. split.
    + by apply fds_fresh_opened.
    + right. rewrite En, En1. split; [reflexivity|].
      unfold opened. world_simpl. by rewrite En1, Eo1.
Qed.

(** What [NewLogger] leaves open: nothing when it reports an error, the
    two files of the logger it returns otherwise. *)
Lemma NewLogger_fds (dir lf ef : string) (w : World) :
  fds_fresh w ->
  exists r w', NewLogger dir lf ef w = Ret r w' /\ fds_fresh w' /\
    ((exists e, r = (None, Some e) /\ open_fds w' = open_fds w) \/
     (exists b, r = (Some b, None) /\ built b /\
        open_fds w' = Blogger_fds b ∪ open_fds w /\
        Blogger_fds b = {[next_fd w; S (next_fd w)]})).
Proof.
  intros Hf. unfold NewLogger. fold (error_name lf ef). unfold bind at 1.
  destruct (openOutputFiles_fds dir lf (error_name lf ef) w Hf)
    as (r & w1 & -> & Hf1 & [(e & -> & Ho)|(-> & Ho)]).
  { eexists _, _. split; [reflexivity|]. split; [exact Hf1|]. left. by exists e. }
  fold (new_Blogger (logs_path w dir lf) (errors_path w dir (error_name lf ef)) (next_fd w)).
  set (b := new_Blogger _ _ _).
  unfold bind, os_Getpid.
  destruct (Log_returns b Trace (bootstrap_event (os_pid w1)) w1) as (w2 & E).
  pose proof (Log_same_fds b Trace (bootstrap_event (os_pid w1)) w1) as Hs.
  rewrite E in *. cbn [outcome_world] in Hs.
  eexists _, _. split; [reflexivity|]. split; [exact (fds_fresh_same w1 w2 Hs Hf1)|].
  right. exists b. split; [reflexivity|]. split; [apply new_Blogger_built|].
  destruct Hs as [-> _]. rewrite Ho.
  assert (Eb : Blogger_fds b = {[next_fd w; S (next_fd w)]}).
  { unfold Blogger_fds, b, new_Blogger. cbn [errorsFile logsFile File_fds f_fd].
    apply set_eq. intros x. rewrite !elem_of_union, !elem_of_singleton. tauto. }
  split; [|exact Eb]. rewrite Eb. apply set_eq. intros x.
  rewrite !elem_of_union, !elem_of_singleton. tauto.
Qed.

(** [Close] returns, and it releases the descriptors of the logger and no
    other. *)
Lemma Close_fds (b : Blogger) (w : World) :
  exists w', Close b w = Ret tt w' /\
    open_fds w' = open_fds w ∖ Blogger_fds b /\ next_fd w' = next_fd w.
Proof.
  assert (Hstep : forall (f : FilePtr) (diag : string) (w0 : World),
    exists w1,
      (match f with
       | Some _ => err <- File_Close f ;;
           match err with Some _ => log_Printf diag | None => ret tt end
       | None => ret tt
       end) w0 = Ret tt w1 /\
      open_fds w1 = open_fds w0 ∖ File_fds f /\ next_fd w1 = next_fd w0).
  { intros [h|] diag w0.
    - unfold bind.
      destruct (File_Close_fds (Some h) w0) as (r & w1 & -> & Ho & Hn & _).
      destruct r as [e|]; [|by exists w1].
      destruct (log_Printf_returns diag w1) as (w2 & E).
      pose proof (log_Printf_blind same_fds diag w1) as Hs. rewrite E in *.
      cbn [outcome_world] in Hs. destruct Hs as [Hs1 Hs2].
      exists w2. repeat split; congruence.
    - exists w0. repeat split. cbn [File_fds]. apply set_eq. intros x.
      rewrite elem_of_difference. split; [|tauto]. intros Hx. split; [assumption|].
      apply not_elem_of_empty. }
  unfold Close. unfold bind at 1.
  destruct (Hstep (errorsFile b) closing_errors_diagnostic w) as (w1 & -> & Ho1 & Hn1).
  destruct (Hstep (logsFile b) closing_logs_diagnostic w1) as (w2 & -> & Ho2 & Hn2).
  exists w2. split; [reflexivity|]. split; [|congruence].
  rewrite Ho2, Ho1. unfold Blogger_fds. apply set_eq. intros x.
  rewrite !elem_of_difference, elem_of_union. tauto.
Qed.

(** ** What stays open *)

Lemma fresh_world_fds_fresh (clk : nat -> UTCTime) (flt : Faults) :
  fds_fresh (fresh_world clk flt).
Proof. intros fd H. cbn in H. by apply not_elem_of_empty in H. Qed.

(** X2. The singleton revision holds no file open between calls. Started
    with a sound descriptor table, [LogRequest], [createOutputFiles] and
    [InitialiseLogger] end with exactly the descriptors open that were open
    before, whatever fails in between and however the call ends (a return, a
    panic, the exit of [log.Fatalf]); [LogRequest] and [createOutputFiles]
    never end the process. *)
Theorem singleton_logger_leaks_no_descriptor (w : World) :
  fds_fresh w ->
  (forall severity process,
     let o := LogRequest severity process w in
     open_fds (outcome_world o) = open_fds w /\ fds_fresh (outcome_world o) /\
     forall n w', o <> Exit n w') /\
  (forall dir lf ef,
     let o := createOutputFiles dir lf ef w in
     open_fds (outcome_world o) = open_fds w /\ fds_fresh (outcome_world o) /\
     forall n w', o <> Exit n w') /\
  (forall dir lf ef,
     let o := InitialiseLogger dir lf ef w in
     open_fds (outcome_world o) = open_fds w /\ fds_fresh (outcome_world o)).
Proof.
  intros Hf. split; [|split].
  - intros severity process o.
    destruct (LogRequest_tidy severity process w Hf) as (He & Ho & Hf1). by repeat split.
  - intros dir lf ef o.
    destruct (createOutputFiles_tidy dir lf ef w Hf) as (He & Ho & Hf1). by repeat split.
  - intros dir lf ef o. by apply InitialiseLogger_fds.
Qed.

Lemma singleton_logger_leaks_no_descriptor_witness :
  open_fds (outcome_world (InitialiseLogger "/tmp/x" "app" "err" w0)) = ∅ /\
  open_fds (outcome_world
              (LogRequest Emergency boom
                 (outcome_world (InitialiseLogger "/tmp/x" "app" "err" w0)))) = ∅.
Proof.
  destruct (singleton_logger_leaks_no_descriptor w0 (fresh_world_fds_fresh _ _))
    as (_ & _ & Hinit).
  destruct (Hinit "/tmp/x" "app" "err") as [Ho Hf].
  split; [exact Ho|].
  destruct (singleton_logger_leaks_no_descriptor _ Hf) as (Hlog & _ & _).
  destruct (Hlog Emergency boom) as (Ho2 & _ & _).
  rewrite Ho2. exact Ho.
Defined.

(** X3. The handle-based revision accounts for its descriptors. Started
    with a sound descriptor table, [NewLogger] returns either an error, with
    no descriptor left open (the logs file is closed again when the errors
    file cannot be opened), or a logger that holds exactly two new
    descriptors; [Close] on that logger returns and the descriptors open are
    those open before [NewLogger]. *)
Theorem NewLogger_then_Close_releases (dir lf ef : string) (w : World) :
  fds_fresh w ->
  exists r w1, NewLogger dir lf ef w = Ret r w1 /\
    ((exists e, r = (None, Some e) /\ open_fds w1 = open_fds w) \/
     (exists b w2, r = (Some b, None) /\
        open_fds w1 = {[next_fd w; S (next_fd w)]} ∪ open_fds w /\
        Blogger_fds b = {[next_fd w; S (next_fd w)]} /\
        Close b w1 = Ret tt w2 /\
        open_fds w2 = open_fds w)).
Proof.
  intros Hf.
  destruct (NewLogger_fds dir lf ef w Hf) as (r & w1 & E & Hf1 & [He|(b & -> & Hb & Ho & Eb)]).
  { exists r, w1. split; [exact E|]. by left. }
  destruct (Close_fds b w1) as (w2 & Ec & Ho2 & Hn2).
  exists (Some b, None), w1. split; [exact E|]. right. exists b, w2.
  split; [reflexivity|]. split; [by rewrite Ho, Eb|]. split; [exact Eb|].
  split; [exact Ec|].
  rewrite Ho2, Ho, Eb. apply set_eq. intros x.
  rewrite elem_of_difference, !elem_of_union, !elem_of_singleton.
  split; [intros [[H|H] Hn]; [contradiction|exact H]|].
  intros Hx. split; [by right|]. specialize (Hf x Hx). lia.
Qed.

Lemma NewLogger_then_Close_releases_witness :
  exists b w1 w2,
    NewLogger "/tmp/x" "app" "err" w0 = Ret (Some b, None) w1 /\
    open_fds w1 = {[3%nat; 4%nat]} /\
    Close b w1 = Ret tt w2 /\ open_fds w2 = ∅.
Proof.
  destruct (NewLogger_then_Close_releases "/tmp/x" "app" "err" w0 (fresh_world_fds_fresh _ _))
    as (r & w1 & E & [(e & -> & _)|(b & w2 & -> & Ho & _ & Ec & Ho2)]).
  - exfalso.
    assert (H : returned (NewLogger "/tmp/x" "app" "err" w0) = Some (None, Some e))
      by (by rewrite E).
    vm_compute in H. discriminate H.
  - exists b, w1, w2. split; [exact E|]. split; [|by split].
    rewrite Ho. apply set_eq. intros x. cbn. rewrite !elem_of_union, !elem_of_singleton.
    split; [intros [H|H]; [exact H|by apply not_elem_of_empty in H]|by left].
Defined.

(** X4. [Close] never fails its caller: on any logger, in any world, it
    returns; it releases the descriptors of the logger's non-nil files and
    touches no other; and a second [Close] returns as well and changes no
    descriptor. *)
Theorem Close_returns_and_releases (b : Blogger) (w : World) :
  exists w1 w2,
    Close b w = Ret tt w1 /\
    open_fds w1 = open_fds w ∖ Blogger_fds b /\
    Close b w1 = Ret tt w2 /\
    open_fds w2 = open_fds w1.
Proof.
  destruct (Close_fds b w) as (w1 & E1 & Ho1 & _).
  destruct (Close_fds b w1) as (w2 & E2 & Ho2 & _).
  exists w1, w2. repeat split; try assumption.
  rewrite Ho2, Ho1. apply set_eq. intros x. rewrite !elem_of_difference. tauto.
Qed.

(** X5. A logger that was closed loses every event without a sign: [Log]
    returns as usual, having read the clock for the timestamp, and no file,
    no descriptor and no standard error stream has changed. *)
Theorem Log_after_Close_is_lost (b : Blogger) (w : World) :
  built b ->
  exists w1, Close b w = Ret tt w1 /\
    forall severity process, Log b severity process w1 = Ret tt (tick w1).
Proof.
  intros Hb. destruct (Close_fds b w) as (w1 & E & Ho & _).
  exists w1. split; [exact E|]. intros severity process.
  rewrite Log_run by assumption. unfold bind, File_Write.
  destruct (Log_file b severity) as [h|] eqn:Eh; [|reflexivity].
  rewrite bool_decide_eq_false_2; [reflexivity|].
  change (open_fds (tick w1)) with (open_fds w1). rewrite Ho.
  intros [_ Hn]%elem_of_difference. apply Hn. unfold Blogger_fds.
  unfold Log_file in Eh.
  destruct ((severity =? Emergency) || (severity =? Alert) || (severity =? Critical));
    rewrite Eh; cbn [File_fds]; apply elem_of_union; [left|right]; by apply elem_of_singleton.
Qed.

Lemma Log_after_Close_is_lost_witness :
  exists w1, Close (new_Blogger "logs.csv" "errors.csv" 3) w0 = Ret tt w1 /\
    forall severity process,
      Log (new_Blogger "logs.csv" "errors.csv" 3) severity process w1 = Ret tt (tick w1).
Proof.
  exact (Log_after_Close_is_lost (new_Blogger "logs.csv" "errors.csv" 3) w0
           (new_Blogger_built _ _ _)).
Defined.

(** ** The standard logger of package [log] *)

#[local] Instance same_std_logger_refl : Reflexive same_std_logger.
Proof. intros w. reflexivity. Qed.

#[local] Instance same_std_logger_trans : Transitive same_std_logger.
Proof. intros w1 w2 w3 H1 H2. unfold same_std_logger in *. congruence. Qed.

#[local] Instance same_std_logger_blind : Blind same_std_logger.
Proof. split; try apply _; intros; reflexivity. Qed.

Lemma File_Close_same_std_logger (f : FilePtr) : keeps same_std_logger (File_Close f).
Proof.
  intros w. destruct (File_Close_fds f w) as (r & w' & -> & _ & _ & _ & H & _). exact H.
Qed.

Lemma closeFile_same_std_logger (f : FilePtr) : keeps same_std_logger (closeFile f).
Proof.
  unfold closeFile. apply keeps_bind; [apply _|apply File_Close_same_std_logger|].
  intros [e|]; keeps_blind.
Qed.

(** Before [InitialiseLogger] the global [Logger] is nil: reading a path
    through it panics, and nothing was done before. *)
Lemma LogRequest_uninitialised (severity : Severity) (process : LogEvent) (w : World) :
  g_Logger w = None -> severity <> Emergency -> severity <> Alert ->
  LogRequest severity process w = Panic nil_dereference w.
Proof.
  intros Eg Hne1 Hne2. unfold LogRequest, LogRequest_switch.
  rewrite (proj2 (Z.eqb_neq _ _) Hne1), (proj2 (Z.eqb_neq _ _) Hne2).
  destruct (severity =? Critical); unfold bind, Logger_field; by rewrite Eg.
Qed.

(** Once the file is open, [LogRequest] returns nil, and it leaves the
    standard logger without flags, pointing at the file, which is closed. *)
Lemma LogRequest_runs (severity : Severity) (process : LogEvent)
    (l : SingletonLogger.Blogger) (w w1 : World) (h : File) :
  g_Logger w = Some l -> severity <> Emergency -> severity <> Alert ->
  os_OpenFile (LogRequest_path l severity) rdwr_append perm_0644 w = Ret (Some h, None) w1 ->
  exists w2, LogRequest severity process w = Ret None w2 /\
    std_logger w2 = mkLogger (lg_prefix (std_logger w1)) 0 (WFile (Some h)) /\
    f_fd h ∉ open_fds w2.
Proof.
  intros Hl He Ha Hop. unfold LogRequest. unfold bind at 1.
  rewrite (LogRequest_switch_opens severity l w Hl He Ha), Hop.
  unfold with_defer, bind, log_SetFlags, log_SetOutput, nowUTC, bind, time_Now, ret.
  cbn [std_logger set_std_logger lg_prefix lg_flags lg_out].
  match goal with |- context [log_Printf ?s ?w0] =>
    destruct (log_Printf_returns s w0) as (w3 & E3);
    pose proof (log_Printf_blind same_std_logger s w0) as H3;
    rewrite E3 in *; cbn [outcome_world] in H3 end.
  destruct (File_Sync_returns (Some h) w3) as (r & ->).
  destruct (closeFile_fds h w3) as (w4 & E4 & Ho & _).
  pose proof (closeFile_same_std_logger (Some h) w3) as H4.
  rewrite E4 in *. cbn [outcome_world] in H4.
  exists w4. split; [reflexivity|]. split.
  - unfold same_std_logger in *. rewrite H4, H3. reflexivity.
  - rewrite Ho. intros [_ Hn]%elem_of_difference. apply Hn. by apply elem_of_singleton.
Qed.

(** A print through a logger without flags whose file is closed does
    nothing at all. *)
Lemma Logger_output_closed (l : log_Logger) (h : File) (s : string) (w : World) :
  lg_flags l = 0 -> lg_out l = WFile (Some h) -> f_fd h ∉ open_fds w ->
  Logger_output l s w = Ret tt w.
Proof.
  intros Hfl Hout Hfd. rewrite Logger_output_plain by assumption.
  rewrite Hout. unfold bind, Writer_Write, File_Write.
  rewrite bool_decide_eq_false_2 by assumption. reflexivity.
Qed.

(** X6. Before [InitialiseLogger] has run, every [LogRequest] panics on a
    nil pointer, whatever the severity; no file and no descriptor is
    touched. *)
Theorem LogRequest_before_InitialiseLogger_panics (severity : Severity)
    (process : LogEvent) (w : World) :
  g_Logger w = None ->
  exists w', LogRequest severity process w = Panic nil_dereference w' /\
    fs_files w' = fs_files w /\ open_fds w' = open_fds w /\ stderr_out w' = stderr_out w.
Proof.
  intros Eg.
  destruct (Z.eqb_spec severity Emergency) as [->|Hne1];
    [exists (dropped w); by rewrite LogRequest_Emergency|].
  destruct (Z.eqb_spec severity Alert) as [->|Hne2];
    [exists (dropped w); by rewrite LogRequest_Alert|].
  exists w. by rewrite LogRequest_uninitialised.
Qed.

Lemma LogRequest_before_InitialiseLogger_panics_witness :
  exists w', LogRequest Notice formatting_test w0 = Panic nil_dereference w' /\
    fs_files w' = fs_files w0 /\ open_fds w' = open_fds w0 /\ stderr_out w' = stderr_out w0.
Proof. exact (LogRequest_before_InitialiseLogger_panics Notice formatting_test w0 eq_refl). Defined.

(** X7. [LogRequest] opens without [O_CREATE]: when the file of the tier is
    not there (any more), the call returns the error of the open, "no such
    file or directory", and creates nothing. The files are made by the
    initialisation only. *)
Theorem LogRequest_never_creates_a_file (severity : Severity) (process : LogEvent)
    (l : SingletonLogger.Blogger) (w : World) :
  g_Logger w = Some l -> severity <> Emergency -> severity <> Alert ->
  let path := LogRequest_path l severity in
  fs_files w !! path = None ->
  fault_open (faults w) path rdwr_append = None ->
  LogRequest severity process w = Ret (Some (PathError "open" path ENOENT)) w.
Proof.
  intros Hl He Ha path Hm Hf.
  apply (LogRequest_open_error severity process l w w None); try assumption.
  by apply os_OpenFile_missing.
Qed.

Lemma LogRequest_never_creates_a_file_witness :
  LogRequest Notice formatting_test w_errors_file_gone =
    Ret (Some (PathError "open" "/tmp/x/2024-01-15-app.csv" ENOENT)) w_errors_file_gone.
Proof.
  refine (LogRequest_never_creates_a_file Notice formatting_test
            (mkPathBlogger "/tmp/x/gone.csv" "/tmp/x/2024-01-15-app.csv")
            w_errors_file_gone _ _ _ _ _).
  - vm_compute. reflexivity.
  - discriminate.
  - discriminate.
  - vm_compute. reflexivity.
  - vm_compute. reflexivity.
Defined.

(** X8. A [LogRequest] that returns nil takes the standard logger of
    package [log] away from the program: the flags are cleared, the output
    is the file of the call, and that file is closed. Whatever the program
    prints through [log.Printf] afterwards is lost: the call returns and the
    world is as before, no file and no standard error stream has the
    message. *)
Theorem LogRequest_silences_the_standard_logger (severity : Severity)
    (process : LogEvent) (w w' : World) :
  LogRequest severity process w = Ret None w' ->
  exists h,
    std_logger w' = mkLogger (lg_prefix (std_logger w)) 0 (WFile (Some h)) /\
    (f_fd h ∉ open_fds w') /\
    forall msg, log_Printf msg w' = Ret tt w'.
Proof.
  intros Hrun.
  destruct (Z.eqb_spec severity Emergency) as [->|Hne1];
    [by rewrite LogRequest_Emergency in Hrun|].
  destruct (Z.eqb_spec severity Alert) as [->|Hne2];
    [by rewrite LogRequest_Alert in Hrun|].
  destruct (g_Logger w) as [l|] eqn:Eg;
    [|by rewrite LogRequest_uninitialised in Hrun].
  destruct (os_OpenFile_cases (LogRequest_path l severity) rdwr_append perm_0644 w)
    as [[e Hop]|Hop].
  { by rewrite (LogRequest_open_error _ process _ _ _ _ _ Eg Hne1 Hne2 Hop) in Hrun. }
  destruct (LogRequest_runs _ process _ _ _ _ Eg Hne1 Hne2 Hop) as (w2 & E & Hs & Hfd).
  rewrite E in Hrun. injection Hrun as <-.
  eexists. split; [exact Hs|]. split; [exact Hfd|].
  intros msg. unfold log_Printf.
  apply (Logger_output_closed (std_logger w2) _ msg w2
           ltac:(by rewrite Hs) ltac:(by rewrite Hs) Hfd).
Qed.

Lemma LogRequest_silences_the_standard_logger_witness :
  exists w', LogRequest Notice formatting_test w_two_files = Ret None w' /\
    log_Printf "a message of the program" w' = Ret tt w'.
Proof.
  assert (E : returned (LogRequest Notice formatting_test w_two_files) = Some None)
    by (vm_compute; reflexivity).
  destruct (LogRequest Notice formatting_test w_two_files) as [[e|] w'|m w'|n w'] eqn:Hrun;
    try discriminate E.
  exists w'. split; [reflexivity|].
  destruct (LogRequest_silences_the_standard_logger Notice formatting_test
              w_two_files w' Hrun) as (h & _ & _ & Hlost).
  apply Hlost.
Defined.

(** ** Initialisation, then a log call *)

Lemma lookup_touch_is_Some (p q : string) (m : gmap string string) :
  p = q \/ is_Some (m !! q) -> is_Some (touch p m !! q).
Proof.
  intros H. unfold touch. destruct (m !! p) eqn:E.
  - destruct H as [<-|H]; [by rewrite E|exact H].
  - destruct (decide (p = q)) as [<-|Hne]; [by rewrite lookup_insert_eq|].
    rewrite lookup_insert_ne by assumption. destruct H as [?|H]; [contradiction|exact H].
Qed.

Lemma lookup_insert_is_Some' (p q v : string) (m : gmap string string) :
  p = q \/ is_Some (m !! q) -> is_Some (<[p := v]> m !! q).
Proof.
  intros H. destruct (decide (p = q)) as [<-|Hne]; [by rewrite lookup_insert_eq|].
  rewrite lookup_insert_ne by assumption. destruct H as [?|H]; [contradiction|exact H].
Qed.

(** After a successful initialisation both files exist. *)
Lemma initialised_files (dir lf ef : string) (w : World) :
  let lp := logs_path w dir lf in
  let ep := errors_path w dir (error_name lf ef) in
  is_Some (fs_files (initialised dir lf ef w) !! lp) /\
  is_Some (fs_files (initialised dir lf ef w) !! ep).
Proof.
  intros lp ep. unfold initialised. fold lp ep.
  unfold logged, created, closed, appended, tick, opened, dated, tick. world_simpl.
  split; apply lookup_insert_is_Some'; [by left|right];
    repeat (apply lookup_touch_is_Some; first [by left | right]).
Qed.

(** X9. The two calls of the singleton compose: after a first
    initialisation whose I/O succeeds, a [LogRequest] of a severity other
    than [Emergency] and [Alert] finds the file that the initialisation
    created read-only, opens it for appending and adds its line, stamped with
    the clock reading that follows the three of the initialisation; the path
    is the one resolved at initialisation. *)
Theorem InitialiseLogger_then_LogRequest (dir lf ef : string) (severity : Severity)
    (process : LogEvent) (w : World) :
  let lp := logs_path w dir lf in
  let ep := errors_path w dir (error_name lf ef) in
  let path := if severity =? Critical then ep else lp in
  let line := terminate_line
                (format_line severity
                   (Format_RFC3339 (clock w (S (S (S (clock_reads w)))))) process) in
  g_once w = false ->
  init_io_ok w dir lp ep ->
  lg_prefix (std_logger w) = "" ->
  severity <> Emergency -> severity <> Alert ->
  exists w1 w2,
    InitialiseLogger dir lf ef w = Ret tt w1 /\
    LogRequest severity process w1 = Ret None w2 /\
    file_content w2 path = file_content w1 path +:+ line /\
    (forall q, path <> q -> file_content w2 q = file_content w1 q).
Proof.
  intros lp ep path line Honce Hio Hpre Hne1 Hne2.
  pose proof (InitialiseLogger_ok dir lf ef w Honce Hio Hpre) as Hinit.
  set (w1 := initialised dir lf ef w) in *.
  assert (Hl : g_Logger w1 = Some (mkPathBlogger ep lp)) by reflexivity.
  assert (Hp : LogRequest_path (mkPathBlogger ep lp) severity = path) by reflexivity.
  assert (Hf : faults w1 = faults w) by reflexivity.
  assert (Hc : clock w1 (clock_reads w1) = clock w (S (S (S (clock_reads w)))))
    by reflexivity.
  destruct (initialised_files dir lf ef w) as [Hlp Hep]. fold lp ep w1 in Hlp, Hep.
  assert (Hex : is_Some (fs_files w1 !! path)) by (unfold path; by destruct (severity =? Critical)).
  assert (Hfaults : fault_open (faults w1) path rdwr_append = None /\
                    fault_write (faults w1) path = None /\
                    fault_close (faults w1) path = None).
  { rewrite Hf. destruct Hio. unfold path. by destruct (severity =? Critical). }
  destruct Hfaults as (Hfo & Hfw & Hfc).
  pose proof (LogRequest_ok severity process (mkPathBlogger ep lp) w1 Hl Hne1 Hne2) as Hrun.
  cbv zeta in Hrun. rewrite Hp in Hrun.
  specialize (Hrun Hex Hfo Hfw Hfc eq_refl). rewrite Hc in Hrun. fold line in Hrun.
  exists w1, (logged path line w1). split; [exact Hinit|]. split; [exact Hrun|].
  split; [apply file_content_logged_eq|]. intros q Hq. by apply file_content_logged_ne.
Qed.

Lemma InitialiseLogger_then_LogRequest_witness :
  exists w1 w2,
    InitialiseLogger "/tmp/x" "app" "err" w0 = Ret tt w1 /\
    LogRequest Critical boom w1 = Ret None w2 /\
    file_content w2 "/tmp/x/2024-01-15-err.csv" =
      "CRITICAL,2024-01-15T12:00:00Z,Operating System,1,boom" +:+ newline.
Proof.
  destruct (InitialiseLogger_then_LogRequest "/tmp/x" "app" "err" Critical boom w0
              eq_refl (w0_init_io_ok _ _ _) eq_refl ltac:(discriminate) ltac:(discriminate))
    as (w1 & w2 & Hinit & Hrun & Hc & Hother).
  exists w1, w2. split; [exact Hinit|]. split; [exact Hrun|].
  assert (E : errors_path w0 "/tmp/x" (error_name "app" "err") = "/tmp/x/2024-01-15-err.csv")
    by (vm_compute; reflexivity).
  cbn [Z.eqb Critical Pos.eqb] in Hc. rewrite E in Hc. rewrite Hc.
  assert (E1 : file_content w1 "/tmp/x/2024-01-15-err.csv" = "").
  { assert (Ew : w1 = outcome_world (InitialiseLogger "/tmp/x" "app" "err" w0))
      by (by rewrite Hinit).
    rewrite Ew. vm_compute. reflexivity. }
  rewrite E1. vm_compute. reflexivity.
Defined.

(** ** Names *)

(** X10. The name tells the constant: each of the six severities and of the
    three process types has a name that is not empty, and a value that has
    the name of a constant is that constant. So the first and the third
    field of a line identify severity and process type, and the empty name
    is the mark of a value outside the constants. *)
Theorem names_identify_the_constants :
  (forall s, Emergency <= s <= Trace -> Severity_ToString s <> "") /\
  (forall s s', Emergency <= s <= Trace ->
     Severity_ToString s' = Severity_ToString s -> s' = s) /\
  (forall p, OsProcess <= p <= RequestProcess -> ProcessType_ToString p <> "") /\
  (forall p p', OsProcess <= p <= RequestProcess ->
     ProcessType_ToString p' = ProcessType_ToString p -> p' = p).
Proof.
  unfold Severity_ToString, ProcessType_ToString, map_index.
  repeat split; intros *; rewrite ?severityName_lookup, ?processTypeName_lookup;
    unfold Emergency, Alert, Critical, Notice, Debug, Trace,
      OsProcess, GoRoutineProcess, RequestProcess;
    intros; repeat case_decide; subst; cbn in *; first [lia | discriminate | congruence].
Qed.

(** ** The checks of the tests *)

(** X11. The field checks of [TestLogFormat] read back what the log call
    formatted: on the line of any event whose process id holds no comma they
    find the severity name, the timestamp, the process-type name, the process
    id and, joined back from the remaining parts, the message as it was
    logged, commas included. *)
Theorem TestLogFormat_reads_back_the_event (severity : Severity)
    (process : LogEvent) (t : UTCTime) :
  contains_char "," (ev_ProcessId process) = false ->
  TestLogFormat_fields (format_line severity (Format_RFC3339 t) process) =
    Some (Severity_ToString severity, Format_RFC3339 t,
          ProcessType_ToString (ev_ProcessType process),
          ev_ProcessId process, ev_Event process).
Proof.
  intros Hpid. unfold TestLogFormat_fields, format_line, Sprintf_csv5.
  fold (Severity_ToString severity) (ProcessType_ToString (ev_ProcessType process)).
  assert (Hsep : forall x, "," +:+ x = String "," x) by reflexivity.
  rewrite !Hsep.
  rewrite Split_app_sep by apply Severity_ToString_no_comma.
  rewrite Split_app_sep by apply Format_RFC3339_no_comma.
  rewrite Split_app_sep by apply ProcessType_ToString_no_comma.
  rewrite Split_app_sep by exact Hpid.
  pose proof (Split_nonempty "," (ev_Event process)) as Hne.
  pose proof (concat_Split "," (ev_Event process)) as Hjoin.
  destruct (strings_Split "," (ev_Event process)) as [|x xs]; [contradiction|].
  cbn [length Nat.ltb Nat.leb nth drop]. unfold strings_Join. by rewrite Hjoin.
Qed.

Lemma TestLogFormat_reads_back_the_event_witness :
  TestLogFormat_fields
    (format_line Notice (Format_RFC3339 noon)
       (mkLogEvent RequestProcess "999" "disk at 91%, 3 files, retrying")) =
    Some ("NOTICE", "2024-01-15T12:00:00Z", "Request", "999",
          "disk at 91%, 3 files, retrying").
Proof.
  exact (TestLogFormat_reads_back_the_event Notice
           (mkLogEvent RequestProcess "999" "disk at 91%, 3 files, retrying") noon
           eq_refl).
Defined.

(** When [openOutputFiles] returns two files, they are the two resolved
    paths, opened in this order on the next two descriptors. *)
Lemma openOutputFiles_success (dir lf ef : string) (w w1 : World) (fl fe : FilePtr) :
  openOutputFiles dir lf ef w = Ret (fl, fe, None) w1 ->
  fl = Some (mkFile (logs_path w dir lf) (next_fd w) create_rdwr_append) /\
  fe = Some (mkFile (errors_path w dir ef) (S (next_fd w)) create_rdwr_append) /\
  w1 = both_open dir (logs_path w dir lf) (errors_path w dir ef) w.
Proof.
  unfold openOutputFiles, todayUTC, bind, time_Now, ret.
  cbn [clock clock_reads set_clock_reads].
  fold (dated_name (clock w (clock_reads w)) lf).
  fold (dated_name (clock w (S (clock_reads w))) ef).
  fold (logs_path w dir lf) (errors_path w dir ef).
  match goal with |- context [os_MkdirAll ?d ?p ?w0] =>
    destruct (os_MkdirAll_cases d p w0) as [[e ->]| ->] end; [discriminate|].
  match goal with |- context [os_OpenFile ?n ?fl ?p ?w0] =>
    destruct (os_OpenFile_cases n fl p w0) as [[e ->]| ->] end; [discriminate|].
  match goal with |- context [os_OpenFile ?n ?fl ?p ?w0] =>
    destruct (os_OpenFile_cases n fl p w0) as [[e ->]| ->] end.
  - match goal with |- context [File_Close (Some ?h) ?w0] =>
      destruct (File_Close_returns h w0) as (r & w2 & -> & _) end. discriminate.
  - intros H. injection H as <- <- <-. by repeat split.
Qed.

(** A successful [NewLogger] has read the clock three times: twice for the
    two dates, once for the timestamp of the bootstrap line. *)
Lemma NewLogger_success (dir lf ef : string) (w w1 : World) (b : Blogger) :
  NewLogger dir lf ef w = Ret (Some b, None) w1 ->
  b = new_Blogger (logs_path w dir lf) (errors_path w dir (error_name lf ef)) (next_fd w) /\
  clock w1 = clock w /\ clock_reads w1 = S (S (S (clock_reads w))).
Proof.
  unfold NewLogger. fold (error_name lf ef). unfold bind at 1.
  destruct (openOutputFiles dir lf (error_name lf ef) w) as [[[fl fe] [e|]] w2|m w2|n w2] eqn:E;
    try discriminate.
  apply openOutputFiles_success in E. destruct E as (-> & -> & ->).
  fold (new_Blogger (logs_path w dir lf) (errors_path w dir (error_name lf ef)) (next_fd w)).
  unfold bind at 1. cbn [os_Getpid]. unfold bind at 1.
  rewrite Log_run by apply new_Blogger_built. unfold bind at 1.
  match goal with |- context [File_Write ?f ?d ?w0] =>
    destruct (File_Write_returns f d w0) as (r & w3 & -> & Hw) end.
  intros H. injection H as <- <-. split; [reflexivity|].
  destruct Hw as [->|(h & _ & ->)]; by split.
Qed.

(** X12. [getExpectedFilenames], called by [TestLoggerIntegration] right
    after [NewLogger], reads the date from the clock once more. It names the
    two files the logger holds whenever that date is the date of the first
    two clock readings of [NewLogger]. *)
Theorem getExpectedFilenames_names_the_files (dir lf ef : string) (w w1 : World)
    (b : Blogger) :
  ef <> "" ->
  NewLogger dir lf ef w = Ret (Some b, None) w1 ->
  Format_date (clock w (clock_reads w)) = Format_date (clock w (S (S (S (clock_reads w))))) ->
  Format_date (clock w (S (clock_reads w))) =
    Format_date (clock w (S (S (S (clock_reads w))))) ->
  exists hl he w2,
    logsFile b = Some hl /\ errorsFile b = Some he /\
    getExpectedFilenames dir lf ef w1 = Ret (f_name hl, f_name he) w2.
Proof.
  intros Hef Hnew Hd1 Hd2. destruct (NewLogger_success _ _ _ _ _ _ Hnew) as (-> & Hc & Hr).
  eexists _, _, _. split; [reflexivity|]. split; [reflexivity|].
  unfold getExpectedFilenames, bind, time_Now, ret. rewrite Hc, Hr.
  cbn [new_Blogger f_name]. unfold logs_path, errors_path, dated_name, strings_Join.
  rewrite Hd1, Hd2. unfold error_name.
  destruct (String.eqb_spec ef ""); [contradiction|]. reflexivity.
Qed.

Lemma getExpectedFilenames_names_the_files_witness :
  exists b w1 w2,
    NewLogger "/tmp/x" "app_logs" "app_errors" w0 = Ret (Some b, None) w1 /\
    getExpectedFilenames "/tmp/x" "app_logs" "app_errors" w1 =
      Ret ("/tmp/x/2024-01-15-app_logs.csv", "/tmp/x/2024-01-15-app_errors.csv") w2.
Proof.
  assert (E : returned (NewLogger "/tmp/x" "app_logs" "app_errors" w0) =
              Some (Some (new_Blogger "/tmp/x/2024-01-15-app_logs.csv"
                            "/tmp/x/2024-01-15-app_errors.csv" 3), None))
    by (vm_compute; reflexivity).
  destruct (NewLogger "/tmp/x" "app_logs" "app_errors" w0) as [[ob oe] w1|m w1|n w1] eqn:Hnew;
    try discriminate E.
  injection E as -> ->.
  destruct (getExpectedFilenames_names_the_files "/tmp/x" "app_logs" "app_errors" w0 w1 _
              ltac:(discriminate) Hnew eq_refl eq_refl)
    as (hl & he & w2 & Hl & He & Hrun).
  injection Hl as <-. injection He as <-.
  eexists _, w1, w2. split; [reflexivity|]. exact Hrun.
Defined.

(** The test can miss the files: when midnight falls between the set-up
    and the call of the helper, it names files of the next day. *)
Lemma getExpectedFilenames_after_midnight :
  let late (n : nat) := match n with
                        | 0 | 1 | 2 => mkUTC 2024 12 31 23 59 59
                        | _ => mkUTC 2025 1 1 0 0 0
                        end%nat in
  let o := NewLogger "/tmp/x" "app_logs" "app_errors" (fresh_world late no_faults) in
  returned o =
    Some (Some (new_Blogger "/tmp/x/2024-12-31-app_logs.csv"
                  "/tmp/x/2024-12-31-app_errors.csv" 3), None) /\
  returned (getExpectedFilenames "/tmp/x" "app_logs" "app_errors" (outcome_world o)) =
    Some ("/tmp/x/2025-01-01-app_logs.csv", "/tmp/x/2025-01-01-app_errors.csv").
Proof. vm_compute. split; reflexivity. Qed.

Lemma Log_routing_partition_witness :
  let w := opened "errors.csv" (opened "logs.csv" w0) in
  let b := new_Blogger "logs.csv" "errors.csv" 3 in
  exists w1 w2,
    Log b Critical boom w = Ret tt w1 /\
    file_content w1 "errors.csv" =
      "CRITICAL,2024-01-15T12:00:00Z,Operating System,1,boom" +:+ newline /\
    file_content w1 "logs.csv" = "" /\
    Log b 7 boom w = Ret tt w2 /\
    file_content w2 "logs.csv" = ",2024-01-15T12:00:00Z,Operating System,1,boom" +:+ newline /\
    file_content w2 "errors.csv" = "".
Proof.
  intros w b.
  assert (H3 : 3%nat ∈ open_fds w) by (cbn; set_solver).
  assert (H4 : 4%nat ∈ open_fds w) by (cbn; set_solver).
  assert (Hne : "errors.csv" <> "logs.csv") by discriminate.
  destruct (Log_routing_partition b Critical boom
              (mkFile "errors.csv" 4 create_rdwr_append)
              (mkFile "logs.csv" 3 create_rdwr_append) w
              (new_Blogger_built _ _ _) eq_refl eq_refl Hne H4 H3 eq_refl eq_refl eq_refl eq_refl)
    as (w1 & Hrun1 & Hc1).
  destruct (Log_routing_partition b 7 boom
              (mkFile "errors.csv" 4 create_rdwr_append)
              (mkFile "logs.csv" 3 create_rdwr_append) w
              (new_Blogger_built _ _ _) eq_refl eq_refl Hne H4 H3 eq_refl eq_refl eq_refl eq_refl)
    as (w2 & Hrun2 & Hc2).
  cbn [andb Z.leb Z.compare Emergency Critical Pos.compare Pos.compare_cont f_name] in Hc1, Hc2.
  destruct Hc1 as [Hc1 Hc1'], Hc2 as [Hc2 Hc2'].
  exists w1, w2. repeat split; assumption.
Defined.

(** ** Concurrent calls of [Blogger.Log] *)

(** Run without interruption, the two steps of a call are [Log]. *)
Lemma run_Log_is_Log (b : Blogger) (severity : Severity) (process : LogEvent) (w : World) :
  outcome_map (fun _ => tt) (run_Log 2 b (Log_start severity process) w) =
  Log b severity process w.
Proof.
  unfold Log.
  lazy beta iota zeta delta [run_Log Log_step Log_start bind ret lc_stage lc_severity
                             lc_process lc_msg nowUTC time_Now].
  destruct ((severity =? Emergency) || (severity =? Alert) || (severity =? Critical));
    match goal with |- context [Logger_Println ?l ?m ?w0] =>
      destruct (Logger_Println l m w0) as [[] w1|m1 w1|n1 w1] end; reflexivity.
Qed.

Lemma written_app (l1 l2 : list string) : written (l1 ++ l2)%list = written l1 +:+ written l2.
Proof.
  induction l1 as [|x l1 IH]; [reflexivity|].
  cbn [app written fold_right]. fold (written (l1 ++ l2)%list) (written l1).
  by rewrite IH, append_assoc.
Qed.

Section concurrent_Log.

Context (b : Blogger) (he hs : File).

Hypothesis b_built : built b.

Hypothesis b_errors : errorsFile b = Some he.

Hypothesis b_logs : logsFile b = Some hs.

Hypothesis names_differ : f_name he <> f_name hs.

(** One step of one call: what it does to the call and to the world. *)
Lemma Log_step_effect (c : LogCall) (w : World) :
  Log_ready he hs w ->
  exists c' w', Log_step b c w = Ret c' w' /\
    Log_ready he hs w' /\ clock w' = clock w /\
    lc_severity c' = lc_severity c /\ lc_process c' = lc_process c /\
    match lc_stage c with
    | AtSprintf =>
        lc_stage c' = AtPrintln /\
        lc_msg c' = format_line (lc_severity c) (Format_RFC3339 (clock w (clock_reads w)))
                      (lc_process c) /\
        fs_files w' = fs_files w
    | AtPrintln =>
        lc_stage c' = LogReturned /\ lc_msg c' = lc_msg c /\
        w' = appended (f_name (tier_file he hs (errors_tier (lc_severity c))))
               (lc_msg c +:+ newline) w
    | LogReturned => c' = c /\ w' = w
    end.
Proof.
  intros Hr. pose proof Hr as (Hfe & Hfs & Hre & Hrs & Hwe & Hws).
  unfold Log_step. destruct (lc_stage c).
  - eexists _, _. split; [reflexivity|]. by repeat split.
  - destruct b_built as [Ee Es]. rewrite Ee, Es, b_errors, b_logs.
    unfold errors_tier, tier_file, bind, Logger_Println.
    destruct ((lc_severity c =? Emergency) || (lc_severity c =? Alert) ||
              (lc_severity c =? Critical));
      rewrite Logger_output_plain by reflexivity;
      unfold bind, log_New; cbn [lg_out lg_prefix Writer_Write];
      change ("" +:+ ?x) with x; rewrite terminate_line_newline;
      rewrite File_Write_ok by assumption;
      (eexists _, _; split; [reflexivity|]; by repeat split).
  - eexists _, _. split; [reflexivity|]. by repeat split.
Qed.

Lemma turns_cons (i j : nat) (schedule : list nat) :
  turns j (i :: schedule) = if decide (i = j) then S (turns j schedule) else turns j schedule.
Proof. unfold turns. rewrite filter_cons. by destruct (decide (i = j)). Qed.

Lemma printed_cons (errors : bool) (c : LogCall) (calls : list LogCall) :
  printed errors (c :: calls) =
    (option_list (printed_line errors c) ++ printed errors calls)%list.
Proof. unfold printed. cbn. by destruct (printed_line errors c). Qed.

Lemma printed_app (errors : bool) (l1 l2 : list LogCall) :
  printed errors (l1 ++ l2)%list = (printed errors l1 ++ printed errors l2)%list.
Proof. apply omap_app. Qed.

(** Replacing a call that has not returned: the lines of a tier gain what
    the new call contributes. *)
Lemma printed_insert (errors : bool) (calls : list LogCall) (i : nat) (c c' : LogCall) :
  calls !! i = Some c -> printed_line errors c = None ->
  printed errors (<[i := c']> calls) ≡ₚ
    (printed errors calls ++ option_list (printed_line errors c'))%list.
Proof.
  intros Hi Hc.
  rewrite (insert_take_drop calls i c') by (by eapply lookup_lt_Some).
  rewrite <- (take_drop_middle calls i c Hi) at 3.
  rewrite !printed_app, !printed_cons, Hc. cbn [option_list app].
  rewrite <- app_assoc. apply Permutation_app_head. apply Permutation_app_comm.
Qed.

Lemma file_content_tier (t : bool) (line : string) (w : World) :
  file_content (appended (f_name (tier_file he hs t)) line w) (f_name he) =
    file_content w (f_name he) +:+ written (if t then [line] else []) /\
  file_content (appended (f_name (tier_file he hs t)) line w) (f_name hs) =
    file_content w (f_name hs) +:+ written (if t then [] else [line]) /\
  (forall q, q <> f_name he -> q <> f_name hs ->
     file_content (appended (f_name (tier_file he hs t)) line w) q = file_content w q).
Proof.
  destruct t; cbn [tier_file written fold_right]; rewrite !append_empty_r;
    repeat split; intros;
    first [ apply file_content_appended_eq
          | apply file_content_appended_ne; congruence ].
Qed.

(** Any schedule, from any stages: the run returns, each file has gained
    the lines of the calls of its tier that returned in this run, in the
    order of their [Println] steps, and every call has advanced by its
    turns. *)
Lemma interleave_Log_effect (schedule : list nat) :
  forall (calls : list LogCall) (w : World),
  Log_ready he hs w ->
  exists calls' w' le ls,
    interleave_Log b schedule calls w = Ret calls' w' /\
    Log_ready he hs w' /\ clock w' = clock w /\
    file_content w' (f_name he) = file_content w (f_name he) +:+ written le /\
    file_content w' (f_name hs) = file_content w (f_name hs) +:+ written ls /\
    (forall q, q <> f_name he -> q <> f_name hs -> file_content w' q = file_content w q) /\
    printed true calls' ≡ₚ (printed true calls ++ le)%list /\
    printed false calls' ≡ₚ (printed false calls ++ ls)%list /\
    (forall i c, calls !! i = Some c ->
       exists c', calls' !! i = Some c' /\
         lc_severity c' = lc_severity c /\ lc_process c' = lc_process c /\
         stage_rank (lc_stage c') =
           Nat.min 2 (stage_rank (lc_stage c) + turns i schedule) /\
         (lc_stage c <> AtSprintf -> lc_msg c' = lc_msg c) /\
         (lc_stage c = AtSprintf -> lc_stage c' <> AtSprintf ->
            exists k, lc_msg c' =
              format_line (lc_severity c) (Format_RFC3339 (clock w k)) (lc_process c))).
Proof.
  induction schedule as [|i rest IH]; intros calls w Hr.
  { exists calls, w, [], []. cbn [interleave_Log written fold_right].
    rewrite !append_empty_r, !app_nil_r.
    do 8 (split; [first [exact Hr | done]|]).
    intros i c Hi. exists c. do 3 (split; [done|]).
    split; [unfold turns; cbn; by destruct (lc_stage c)|]. split; [done|]. congruence. }
  cbn [interleave_Log]. destruct (calls !! i) as [c|] eqn:Hi.
  - destruct (Log_step_effect c w Hr) as (c1 & w1 & E & Hr1 & Hc1 & Hsev & Hproc & Hst).
    unfold bind. rewrite E.
    destruct (IH (<[i := c1]> calls) w1 Hr1)
      as (calls' & w' & le' & ls' & Erun & Hr' & Hc' & He' & Hs' & Ho' & Pe' & Ps' & Hcalls).
    assert (Hcall : forall j cj, calls !! j = Some cj ->
       exists c', calls' !! j = Some c' /\
         lc_severity c' = lc_severity cj /\ lc_process c' = lc_process cj /\
         stage_rank (lc_stage c') =
           Nat.min 2 (stage_rank (lc_stage cj) + turns j (i :: rest)) /\
         (lc_stage cj <> AtSprintf -> lc_msg c' = lc_msg cj) /\
         (lc_stage cj = AtSprintf -> lc_stage c' <> AtSprintf ->
            exists k, lc_msg c' =
              format_line (lc_severity cj) (Format_RFC3339 (clock w k)) (lc_process cj))).
    { intros j cj Hj. rewrite turns_cons. destruct (decide (i = j)) as [<-|Hne].
      - assert (cj = c) by congruence. subst cj.
        destruct (Hcalls i c1) as (c' & Hl & Hs1 & Hp1 & Hrk & Hm1 & Hm2).
        { apply list_lookup_insert_eq. by eapply lookup_lt_Some. }
        exists c'. split; [exact Hl|]. split; [congruence|]. split; [congruence|].
        rewrite Hc1 in Hm2.
        destruct (lc_stage c) eqn:Est.
        + destruct Hst as (Hst1 & Hmsg & _). rewrite Hst1 in *. cbn [stage_rank] in *.
          split; [lia|]. split; [done|]. intros _ _.
          exists (clock_reads w). rewrite Hm1 by done. exact Hmsg.
        + destruct Hst as (Hst1 & Hmsg & _). rewrite Hst1 in *. cbn [stage_rank] in *.
          split; [lia|]. split; [|done]. intros _. rewrite Hm1 by done. exact Hmsg.
        + destruct Hst as (-> & _). rewrite Est in *. cbn [stage_rank] in *.
          split; [lia|]. split; [|done]. intros _. by apply Hm1.
      - destruct (Hcalls j cj) as (c' & Hl & Hs1 & Hp1 & Hrk & Hm1 & Hm2).
        { by rewrite list_lookup_insert_ne. }
        exists c'. rewrite Hc1 in Hm2. do 5 (split; [done|]). exact Hm2. }
    destruct (lc_stage c) eqn:Est.
    + destruct Hst as (Hst1 & Hmsg & Hfiles).
      assert (Hfc : forall q, file_content w1 q = file_content w q)
        by (intros q; unfold file_content; by rewrite Hfiles).
      exists calls', w', le', ls'. split; [exact Erun|]. split; [exact Hr'|].
      split; [congruence|]. split; [by rewrite He', Hfc|]. split; [by rewrite Hs', Hfc|].
      split; [intros q H1 H2; by rewrite Ho', Hfc|].
      split; [|split; [|exact Hcall]].
      * rewrite Pe'. rewrite (printed_insert true calls i c c1 Hi)
          by (unfold printed_line; by rewrite Est).
        unfold printed_line. rewrite Hst1. cbn [option_list]. by rewrite app_nil_r.
      * rewrite Ps'. rewrite (printed_insert false calls i c c1 Hi)
          by (unfold printed_line; by rewrite Est).
        unfold printed_line. rewrite Hst1. cbn [option_list]. by rewrite app_nil_r.
    + destruct Hst as (Hst1 & Hmsg & ->).
      destruct (file_content_tier (errors_tier (lc_severity c)) (lc_msg c +:+ newline) w)
        as (Fe & Fs & Fo).
      exists calls', w',
        ((if errors_tier (lc_severity c) then [lc_msg c +:+ newline] else []) ++ le')%list,
        ((if errors_tier (lc_severity c) then [] else [lc_msg c +:+ newline]) ++ ls')%list.
      split; [exact Erun|]. split; [exact Hr'|]. split; [congruence|].
      split; [by rewrite He', Fe, written_app, append_assoc|].
      split; [by rewrite Hs', Fs, written_app, append_assoc|].
      split; [intros q H1 H2; by rewrite Ho', Fo|].
      split; [|split; [|exact Hcall]].
      * rewrite Pe'. rewrite (printed_insert true calls i c c1 Hi)
          by (unfold printed_line; by rewrite Est).
        unfold printed_line. rewrite Hst1, Hsev, Hmsg.
        rewrite <- app_assoc. by destruct (errors_tier (lc_severity c)).
      * rewrite Ps'. rewrite (printed_insert false calls i c c1 Hi)
          by (unfold printed_line; by rewrite Est).
        unfold printed_line. rewrite Hst1, Hsev, Hmsg.
        rewrite <- app_assoc. by destruct (errors_tier (lc_severity c)).
    + destruct Hst as (-> & ->). rewrite list_insert_id in Erun by exact Hi.
      rewrite list_insert_id in Pe', Ps' by exact Hi.
      rewrite list_insert_id by exact Hi.
      exists calls', w', le', ls'. do 8 (split; [first [exact Hr' | done]|]). exact Hcall.
  - destruct (IH calls w Hr)
      as (calls' & w' & le' & ls' & Erun & Hr' & Hc' & He' & Hs' & Ho' & Pe' & Ps' & Hcalls).
    exists calls', w', le', ls'. do 8 (split; [first [exact Hr' | done]|]).
    intros j cj Hj. rewrite turns_cons.
    destruct (decide (i = j)) as [<-|Hne]; [congruence|]. by apply Hcalls.
Qed.

End concurrent_Log.

Lemma printed_Log_start (errors : bool) (events : list (Severity * LogEvent)) :
  printed errors (map (fun e => Log_start e.1 e.2) events) = [].
Proof. induction events as [|e events IH]; [reflexivity|]. by rewrite map_cons, printed_cons. Qed.

(** X14. Concurrent calls of [Blogger.Log] on one logger, as
    [TestConcurrency] makes them, lose and mix nothing. With the logger as
    [NewLogger] builds it, its two files open on distinct names and no write
    failing, take any number of calls and any interleaving of their steps.
    The run returns, no call panics. Each file has gained whole lines only:
    [le] and [ls], the lines appended to the errors and to the logs file in
    the order of the writes, are up to order the lines of the calls of that
    tier that have returned; no other file changes. Every call has kept its
    event and has advanced by its turns, so a call given two turns has
    returned, and its line is the line of its own event, stamped with a
    reading of the clock. *)
Theorem concurrent_Log_keeps_every_line (b : Blogger) (he hs : File)
    (events : list (Severity * LogEvent)) (schedule : list nat) (w : World) :
  built b -> errorsFile b = Some he -> logsFile b = Some hs ->
  f_name he <> f_name hs -> Log_ready he hs w ->
  exists calls' w' le ls,
    interleave_Log b schedule (map (fun e => Log_start e.1 e.2) events) w = Ret calls' w' /\
    file_content w' (f_name he) = file_content w (f_name he) +:+ written le /\
    file_content w' (f_name hs) = file_content w (f_name hs) +:+ written ls /\
    (forall q, q <> f_name he -> q <> f_name hs -> file_content w' q = file_content w q) /\
    le ≡ₚ printed true calls' /\ ls ≡ₚ printed false calls' /\
    (forall i severity process, events !! i = Some (severity, process) ->
       exists c, calls' !! i = Some c /\
         lc_severity c = severity /\ lc_process c = process /\
         stage_rank (lc_stage c) = Nat.min 2 (turns i schedule) /\
         (lc_stage c <> AtSprintf ->
            exists k, lc_msg c = format_line severity (Format_RFC3339 (clock w k)) process)).
Proof.
  intros Hb He Hs Hne Hr.
  destruct (interleave_Log_effect b he hs Hb He Hs Hne schedule
              (map (fun e => Log_start e.1 e.2) events) w Hr)
    as (calls' & w' & le & ls & Erun & _ & _ & Hce & Hcs & Ho & Pe & Ps & Hcalls).
  rewrite printed_Log_start in Pe, Ps. cbn [app] in Pe, Ps.
  exists calls', w', le, ls. do 4 (split; [assumption|]).
  split; [by symmetry|]. split; [by symmetry|].
  intros i severity process Hi.
  destruct (Hcalls i (Log_start severity process)) as (c & Hl & Hsev & Hproc & Hrk & _ & Hmsg).
  { rewrite list_lookup_fmap, Hi. reflexivity. }
  exists c. do 3 (split; [assumption|]). split; [exact Hrk|].
  intros Hst. by apply Hmsg.
Qed.

Lemma concurrent_Log_keeps_every_line_witness :
  let w := opened "errors.csv" (opened "logs.csv" w0) in
  let b := new_Blogger "logs.csv" "errors.csv" 3 in
  exists calls' w' le ls,
    interleave_Log b [0; 1; 1; 0; 2; 2]%nat
      (map (fun e => Log_start e.1 e.2)
         [(Critical, boom); (Notice, formatting_test); (Trace, boom)]) w = Ret calls' w' /\
    file_content w' "errors.csv" = file_content w "errors.csv" +:+ written le /\
    file_content w' "logs.csv" = file_content w "logs.csv" +:+ written ls /\
    le ≡ₚ printed true calls' /\ ls ≡ₚ printed false calls'.
Proof.
  intros w b.
  assert (Hr : Log_ready (mkFile "errors.csv" 4 create_rdwr_append)
                 (mkFile "logs.csv" 3 create_rdwr_append) w).
  { split; [cbn; set_solver|]. split; [cbn; set_solver|]. by repeat split. }
  destruct (concurrent_Log_keeps_every_line b _ _
              [(Critical, boom); (Notice, formatting_test); (Trace, boom)]
              [0; 1; 1; 0; 2; 2]%nat w
              (new_Blogger_built _ _ _) eq_refl eq_refl ltac:(discriminate) Hr)
    as (calls' & w' & le & ls & Erun & Hce & Hcs & _ & Pe & Ps & _).
  exists calls', w', le, ls. by repeat split.
Defined.

(** The run of three calls under one schedule, computed: the [Critical] call is overtaken by
    the [Notice] call between its two steps, and every line is whole and in
    the file of its tier. *)
Example concurrent_Log_sample :
  let w := opened "errors.csv" (opened "logs.csv" w0) in
  let b := new_Blogger "logs.csv" "errors.csv" 3 in
  let o := interleave_Log b [0; 1; 1; 0; 2; 2]%nat
             (map (fun e => Log_start e.1 e.2)
                [(Critical, boom); (Notice, formatting_test); (Trace, boom)]) w in
  file_content (outcome_world o) "errors.csv" =
    "CRITICAL,2024-01-15T12:00:00Z,Operating System,1,boom" +:+ newline /\
  file_content (outcome_world o) "logs.csv" =
    "NOTICE,2024-01-15T12:00:00Z,Request,999,FormattingTest" +:+ newline +:+
    "TRACE,2024-01-15T12:00:00Z,Operating System,1,boom" +:+ newline.
Proof. vm_compute. split; reflexivity. Qed.

(** ** The globals of the singleton *)

#[local] Instance same_globals_refl : Reflexive same_globals.
Proof. intros w. split; reflexivity. Qed.

#[local] Instance same_globals_trans : Transitive same_globals.
Proof. intros w1 w2 w3 [H1 H2] [H3 H4]. split; congruence. Qed.

#[local] Instance same_globals_blind : Blind same_globals.
Proof. split; try apply _; intros; split; reflexivity. Qed.

Lemma os_OpenFile_same_globals (name : string) (flag : OpenFlags) (perm : Z) :
  keeps same_globals (os_OpenFile name flag perm).
Proof.
  intros w. destruct (os_OpenFile_cases name flag perm w) as [[e ->]| ->];
    [reflexivity | split; reflexivity].
Qed.

Lemma File_Close_same_globals (f : FilePtr) : keeps same_globals (File_Close f).
Proof.
  intros w. destruct f as [h|]; [|reflexivity].
  destruct (File_Close_returns h w) as (r & w' & -> & [->| ->] & _);
    [reflexivity | split; reflexivity].
Qed.

Lemma closeFile_same_globals (f : FilePtr) : keeps same_globals (closeFile f).
Proof.
  unfold closeFile. apply keeps_bind; [apply _|apply File_Close_same_globals|].
  intros [e|]; keeps_blind.
Qed.

Lemma log_SetFlags_same_globals (n : Z) : keeps same_globals (log_SetFlags n).
Proof. intros w. split; reflexivity. Qed.

Lemma log_SetOutput_same_globals (f : FilePtr) : keeps same_globals (log_SetOutput f).
Proof. intros w. split; reflexivity. Qed.

Lemma Logger_field_same_globals (field : SingletonLogger.Blogger -> string) :
  keeps same_globals (Logger_field field).
Proof. intros w. unfold Logger_field. destruct (g_Logger w); reflexivity. Qed.

Ltac keeps_same_globals :=
  repeat first
    [ apply log_SetFlags_same_globals | apply log_SetOutput_same_globals
    | apply os_OpenFile_same_globals | apply closeFile_same_globals
    | apply File_Close_same_globals | apply Logger_field_same_globals
    | progress keeps_blind ].

Lemma createOutputFiles_same_globals (dir lf ef : string) :
  keeps same_globals (createOutputFiles dir lf ef).
Proof. unfold createOutputFiles. keeps_same_globals. Qed.

Lemma LogRequest_same_globals (severity : Severity) (process : LogEvent) :
  keeps same_globals (LogRequest severity process).
Proof. unfold LogRequest, LogRequest_switch. keeps_same_globals. Qed.

(** With the singleton set up, a [LogRequest] of a severity other than
    [Emergency] and [Alert] returns. *)
Lemma LogRequest_returns (severity : Severity) (process : LogEvent)
    (l : SingletonLogger.Blogger) (w : World) :
  g_Logger w = Some l -> severity <> Emergency -> severity <> Alert ->
  exists r w', LogRequest severity process w = Ret r w'.
Proof.
  intros Hl Hne1 Hne2.
  destruct (os_OpenFile_cases (LogRequest_path l severity) rdwr_append perm_0644 w)
    as [[e Hop]|Hop].
  - eexists _, _. exact (LogRequest_open_error _ process _ _ _ _ _ Hl Hne1 Hne2 Hop).
  - destruct (LogRequest_opened_nil _ process _ _ _ _ Hl Hne1 Hne2 Hop) as (w2 & E).
    by eexists _, _.
Qed.

(** X15. [InitialiseLogger] never panics, whatever fails. Once the
    [sync.Once] is spent it returns and changes nothing. Before that it
    either ends the process with status 1, the singleton untouched, or it
    returns with the [sync.Once] spent and the global [Logger] holding the two
    paths resolved from the first two clock readings, also when writing the
    bootstrap line failed. After a return of [InitialiseLogger] in a process
    that had not spent the [sync.Once], [Logger] is never nil. *)
Theorem InitialiseLogger_returns_or_exits (dir lf ef : string) (w : World) :
  (g_once w = true /\ InitialiseLogger dir lf ef w = Ret tt w) \/
  (g_once w = false /\
   exists w',
     (InitialiseLogger dir lf ef w = Exit 1 w' /\
      g_Logger w' = g_Logger w /\ g_once w' = false) \/
     (InitialiseLogger dir lf ef w = Ret tt w' /\
      g_once w' = true /\
      g_Logger w' =
        Some (mkPathBlogger (errors_path w dir (error_name lf ef)) (logs_path w dir lf)))).
Proof.
  destruct (g_once w) eqn:Honce; [left; split; [reflexivity|by apply InitialiseLogger_done]|].
  right. split; [reflexivity|].
  remember (InitialiseLogger dir lf ef w) as o eqn:Eo.
  unfold InitialiseLogger, once_Do in Eo. rewrite Honce in Eo. fold (error_name lf ef) in Eo.
  unfold bind at 1 in Eo.
  pose proof (createOutputFiles_same_globals dir lf (error_name lf ef) w) as Hg.
  destruct (createOutputFiles_returns dir lf (error_name lf ef) w)
    as (r & w1 & E & [->|[e ->]]); rewrite E in *; cbn [outcome_world] in Hg;
    destruct Hg as [Hg1 Hg2].
  - unfold bind at 1 2 in Eo. cbn [os_Getpid] in Eo. unfold bind at 1 in Eo.
    match type of Eo with context [LogRequest Trace ?p ?w2] =>
      destruct (LogRequest_returns Trace p
                  (mkPathBlogger (errors_path w dir (error_name lf ef)) (logs_path w dir lf))
                  w2 eq_refl ltac:(discriminate) ltac:(discriminate)) as (r & w3 & E3);
      pose proof (LogRequest_same_globals Trace p w2) as Hl; rewrite E3 in *;
      cbn [outcome_world] in Hl; destruct Hl as [Hl1 Hl2] end.
    subst o. exists (set_once true w3). right. split; [reflexivity|]. split; [reflexivity|].
    exact Hl1.
  - unfold log_Fatalf, bind in Eo.
    match type of Eo with context [log_Printf ?s w1] =>
      destruct (log_Printf_returns s w1) as (w2 & E2);
      pose proof (log_Printf_blind same_globals s w1) as Hp; rewrite E2 in *;
      cbn [outcome_world] in Hp; destruct Hp as [Hp1 Hp2] end.
    subst o. exists w2. left. split; [reflexivity|]. split; congruence.
Qed.
